(** * BLEProxy: the event handlers of [main/main.c], embedded and verified

    The program is an ESP32 firmware with three Bluedroid callbacks
    ([gap_event_handler], [gattc_event_handler], [gatts_event_handler])
    that share four file-scope variables.  The embedding keeps that shape:
    the globals are a record, every handler is a computation in a small
    state-and-trace monad, and every call into ESP-IDF (logging included)
    is appended to the trace in program order.  Values that ESP-IDF hands
    back to the program (the attribute count, the result of [malloc], the
    fetched characteristics, the return code of the advertising
    configuration) are inputs of the handlers, gathered in [stack_replies]. *)

From Stdlib Require Import ZArith String Bool Lia.
From stdpp Require Import base list strings.

Local Open Scope Z_scope.

(** ** Types of the ESP-IDF interface *)

(** [esp_bt_uuid_t]: a length tag and a union of the three UUID widths. *)
Inductive esp_bt_uuid_t : Type :=
  | UUID16 (uuid16 : Z)
  | UUID32 (uuid32 : Z)
  | UUID128 (uuid128 : list Z).

(** The source reads the [uuid16] member of the union whatever the length
    tag says ([char_elem_result[i].uuid.uuid.uuid16]); on the little-endian
    ESP32 that is the low 16 bits of the stored value. *)
Definition uuid16_member (u : esp_bt_uuid_t) : Z :=
  match u with
  | UUID16 v => v
  | UUID32 v => Z.land v 65535
  | UUID128 bs => Z.lor (default 0 (bs !! 0%nat)) (Z.shiftl (default 0 (bs !! 1%nat)) 8)
  end.

(** [esp_gattc_char_elem_t] *)
Record esp_gattc_char_elem_t : Type := CharElem {
  char_handle : Z;
  properties : Z;
  uuid : esp_bt_uuid_t
}.

Inductive esp_ble_addr_type_t : Type := BLE_ADDR_TYPE_PUBLIC | BLE_ADDR_TYPE_RANDOM.
Inductive esp_ble_adv_type_t : Type := ADV_TYPE_IND.
Inductive esp_ble_adv_channel_t : Type := ADV_CHNL_ALL.
Inductive esp_ble_adv_filter_t : Type := ADV_FILTER_ALLOW_SCAN_ANY_CON_ANY.
Inductive esp_gatt_db_attr_type_t : Type := ESP_GATT_DB_CHARACTERISTIC.
Inductive esp_ble_adv_flag : Type :=
  ESP_BLE_ADV_FLAG_GEN_DISC | ESP_BLE_ADV_FLAG_BREDR_NOT_SPT.

(** [esp_gatt_status_t]: only success is named by the program. *)
Definition ESP_GATT_OK : Z := 0.

(** [esp_ble_adv_data_t].  The two pointer members are represented by the
    bytes they point to at the moment the structure is handed over. *)
Record esp_ble_adv_data_t : Type := AdvData {
  set_scan_rsp : bool;
  include_name : bool;
  include_txpower : bool;
  min_interval : Z;
  max_interval : Z;
  appearance : Z;
  manufacturer_len : Z;
  p_manufacturer_data : option (list Z);
  service_data_len : Z;
  p_service_data : list Z;
  service_uuid_len : Z;
  p_service_uuid : list Z;
  flag : list esp_ble_adv_flag
}.

(** [esp_ble_adv_params_t] *)
Record esp_ble_adv_params_t : Type := AdvParams {
  adv_int_min : Z;
  adv_int_max : Z;
  adv_type : esp_ble_adv_type_t;
  own_addr_type : esp_ble_addr_type_t;
  peer_addr : list Z;
  peer_addr_type : esp_ble_addr_type_t;
  channel_map : esp_ble_adv_channel_t;
  adv_filter_policy : esp_ble_adv_filter_t
}.

Inductive log_level : Type := LOGI | LOGE.

(** Every call the program makes into ESP-IDF or libc, with its arguments. *)
Inductive call : Type :=
  | esp_log (lvl : log_level) (tag fmt : string) (args : list Z)
  | esp_log_buffer_hex (tag : string) (buffer : list Z)
  | esp_ble_gap_set_device_name (name : string)
  | esp_ble_gap_config_adv_data (adv : esp_ble_adv_data_t)
  | esp_ble_gap_start_advertising (params : esp_ble_adv_params_t)
  | esp_ble_gattc_open (gattc_if : Z) (remote_bda : list Z)
      (remote_addr_type : esp_ble_addr_type_t) (is_direct : bool)
  | esp_ble_gattc_search_service (gattc_if conn_id : Z)
      (filter_uuid : option esp_bt_uuid_t)
  | esp_ble_gattc_get_attr_count (gattc_if conn_id : Z)
      (type : esp_gatt_db_attr_type_t) (start_handle end_handle char_handle : Z)
  | esp_ble_gattc_get_all_char (gattc_if conn_id start_handle end_handle : Z)
      (count offset : Z)
  | malloc_char_elems (count : Z)
  | free_char_elems.

(** What ESP-IDF and libc give back during one handler invocation.
    [attr_count] is the value left in [count] by
    [esp_ble_gattc_get_attr_count]; [malloc_succeeds] tells whether
    [malloc] returned a non-null pointer for that many elements;
    [all_char] gives the buffer contents (by index) and the value left in
    [count] by [esp_ble_gattc_get_all_char]; [config_adv_data_ret] is the
    [esp_err_t] returned by [esp_ble_gap_config_adv_data]. *)
Record stack_replies : Type := Replies {
  attr_count : Z → Z → Z;
  malloc_succeeds : Z → bool;
  all_char : Z → Z → Z → (Z → esp_gattc_char_elem_t) * Z;
  config_adv_data_ret : Z
}.

(** ** Events delivered to the three callbacks

    Each constructor carries the members of the parameter union that
    belong to the event; events the [switch] statements do not name are
    kept with their numeric code. *)

Inductive esp_gap_ble_cb_event_t : Type :=
  | ESP_GAP_BLE_ADV_DATA_SET_COMPLETE_EVT (status : Z)
  | ESP_GAP_BLE_ADV_START_COMPLETE_EVT (status : Z)
  | ESP_GAP_BLE_SCAN_RESULT_EVT
  | ESP_GAP_BLE_OTHER_EVT (code : Z).

Inductive esp_gattc_cb_event_t : Type :=
  | ESP_GATTC_REG_EVT (status app_id : Z)
  | ESP_GATTC_OPEN_EVT (status conn_id : Z)
  | ESP_GATTC_SEARCH_RES_EVT (conn_id start_handle end_handle : Z)
      (srvc_id : esp_bt_uuid_t)
  | ESP_GATTC_SEARCH_CMPL_EVT (status conn_id : Z)
  | ESP_GATTC_NOTIFY_EVT (conn_id handle : Z) (value : list Z) (value_len : Z)
  | ESP_GATTC_CLOSE_EVT (status conn_id : Z)
  | ESP_GATTC_DISCONNECT_EVT (reason conn_id : Z)
  | ESP_GATTC_OTHER_EVT (code : Z).

Inductive esp_gatts_cb_event_t : Type :=
  | ESP_GATTS_REG_EVT (status app_id : Z)
  | ESP_GATTS_CONNECT_EVT (conn_id : Z)
  | ESP_GATTS_DISCONNECT_EVT (conn_id reason : Z)
  | ESP_GATTS_OTHER_EVT (code : Z).

(** ** File-scope constants *)

Definition TAG : string := "BLE_PROXY".
Definition LOCAL_DEVICE_NAME : string := "TIAGO-U105".

Definition target_bda : list Z := [0xFE; 0x98; 0x00; 0x30; 0x39; 0x45].

Definition service_uuid128 : list Z :=
  [0xfb; 0x34; 0x9b; 0x5f; 0x80; 0x00; 0x00; 0x80; 0x00; 0x10; 0x00; 0x00;
   0x09; 0x18;
   0x00; 0x00].

Definition service_data_uuid : Z := 0xC1C5.

Definition service_data_payload : list Z :=
  [0xFE; 0x98; 0x00; 0x30; 0x39; 0x44; 0xE4; 0x0C; 0x7F; 0x08; 0x1D; 0x04;
   0x00; 0x00; 0x04; 0x46; 0x60; 0x09; 0x00; 0x0A].

Definition adv_params : esp_ble_adv_params_t := {|
  adv_int_min := 0x20;
  adv_int_max := 0x40;
  adv_type := ADV_TYPE_IND;
  own_addr_type := BLE_ADDR_TYPE_PUBLIC;
  peer_addr := [0; 0; 0; 0; 0; 0];
  peer_addr_type := BLE_ADDR_TYPE_PUBLIC;
  channel_map := ADV_CHNL_ALL;
  adv_filter_policy := ADV_FILTER_ALLOW_SCAN_ANY_CON_ANY
|}.

(** ** File-scope variables *)

Record globals : Type := Globals {
  service_data : list Z;
  gattc_if_global : Z;
  gattc_conn_id_global : Z;
  connected : bool
}.

(** The static initialisers: [service_data] has [2 + sizeof(payload)]
    zero bytes, the other three are [0], [0] and [false]. *)
Definition initial_globals : globals := {|
  service_data := replicate (2 + length service_data_payload) 0;
  gattc_if_global := 0;
  gattc_conn_id_global := 0;
  connected := false
|}.

(** [adv_data] points at [service_data] and [service_uuid128]; its value
    as seen by a callee depends on the current contents of the buffer. *)
Definition adv_data (g : globals) : esp_ble_adv_data_t := {|
  set_scan_rsp := false;
  include_name := true;
  include_txpower := false;
  min_interval := 0x20;
  max_interval := 0x40;
  appearance := 0x00;
  manufacturer_len := 0;
  p_manufacturer_data := None;
  service_data_len := Z.of_nat (2 + length service_data_payload);
  p_service_data := service_data g;
  service_uuid_len := Z.of_nat (length service_uuid128);
  p_service_uuid := service_uuid128;
  flag := [ESP_BLE_ADV_FLAG_GEN_DISC; ESP_BLE_ADV_FLAG_BREDR_NOT_SPT]
|}.

(** ** The handler monad: global state plus the trace of calls *)

Definition M (A : Type) : Type := globals → A * globals * list call.

#[export] Instance M_ret : MRet M := λ A a g, (a, g, []).
#[export] Instance M_bind : MBind M := λ A B k m g,
  let r1 := m g in
  let r2 := k r1.1.1 r1.1.2 in
  (r2.1.1, r2.1.2, r1.2 ++ r2.2).

Definition emit (c : call) : M unit := λ g, ((), g, [c]).
Definition read {A} (f : globals → A) : M A := λ g, (f g, g, []).
Definition write (f : globals → globals) : M unit := λ g, ((), f g, []).

Definition globals_of {A} (r : A * globals * list call) : globals := r.1.2.
Definition trace_of {A} (r : A * globals * list call) : list call := r.2.

Definition ESP_LOGI (tag fmt : string) (args : list Z) : M unit :=
  emit (esp_log LOGI tag fmt args).
Definition ESP_LOGE (tag fmt : string) (args : list Z) : M unit :=
  emit (esp_log LOGE tag fmt args).

(** [for (int i = 0; i < count; i++) body(i)]; [count] is not written in
    the body, so the indices are [0, 1, ..., count - 1]. *)
Fixpoint for_each (idx : list Z) (body : Z → M unit) : M unit :=
  match idx with
  | [] => mret ()
  | i :: rest => body i ;; for_each rest body
  end.

Definition set_service_data (f : list Z → list Z) (g : globals) : globals :=
  {| service_data := f (service_data g);
     gattc_if_global := gattc_if_global g;
     gattc_conn_id_global := gattc_conn_id_global g;
     connected := connected g |}.
Definition set_gattc_if_global (v : Z) (g : globals) : globals :=
  {| service_data := service_data g;
     gattc_if_global := v;
     gattc_conn_id_global := gattc_conn_id_global g;
     connected := connected g |}.
Definition set_gattc_conn_id_global (v : Z) (g : globals) : globals :=
  {| service_data := service_data g;
     gattc_if_global := gattc_if_global g;
     gattc_conn_id_global := v;
     connected := connected g |}.
Definition set_connected (v : bool) (g : globals) : globals :=
  {| service_data := service_data g;
     gattc_if_global := gattc_if_global g;
     gattc_conn_id_global := gattc_conn_id_global g;
     connected := v |}.

(** ** [prepare_service_data] *)

(** The body of [prepare_service_data] on the buffer: two indexed stores
    and a [memcpy] of the whole payload to offset 2.  It is written over
    an arbitrary UUID and payload so that the layout can be stated once;
    the program runs it on [service_data_uuid] and [service_data_payload]. *)
Definition fill_service_data (uuid : Z) (payload buf : list Z) : list Z :=
  let buf := <[0%nat := Z.land uuid 0xFF]> buf in
  let buf := <[1%nat := Z.land (Z.shiftr uuid 8) 0xFF]> buf in
  list_inserts 2 payload buf.

Definition prepare_service_data : M unit :=
  write (set_service_data (fill_service_data service_data_uuid service_data_payload)).

(** ** The three callbacks *)

Section Handlers.

(** The replies ESP-IDF gives during the invocation at hand. *)
Context (stk : stack_replies).

Definition gap_event_handler (event : esp_gap_ble_cb_event_t) : M unit :=
  match event with
  | ESP_GAP_BLE_ADV_DATA_SET_COMPLETE_EVT _ =>
      ESP_LOGI TAG "Advertising data set complete, starting advertising..." [] ;;
      prepare_service_data ;;
      emit (esp_ble_gap_start_advertising adv_params)
  | ESP_GAP_BLE_ADV_START_COMPLETE_EVT _ =>
      ESP_LOGI "GAP" "Advertising started" []
  | ESP_GAP_BLE_SCAN_RESULT_EVT =>
      ESP_LOGI TAG "Scan result..." []
  | ESP_GAP_BLE_OTHER_EVT _ =>
      mret ()
  end.

(** The [ESP_GATTC_SEARCH_CMPL_EVT] case: count, then allocate, then
    fetch, then one log line per index below the count the fetch left. *)
Definition list_characteristics (gattc_if : Z) : M unit :=
  conn ← read gattc_conn_id_global ;
  emit (esp_ble_gattc_get_attr_count gattc_if conn ESP_GATT_DB_CHARACTERISTIC 0 0 0) ;;
  let count := attr_count stk gattc_if conn in
  if 0 <? count then
    emit (malloc_char_elems count) ;;
    if malloc_succeeds stk count then
      conn ← read gattc_conn_id_global ;
      emit (esp_ble_gattc_get_all_char gattc_if conn 0 0 count 0) ;;
      let char_elem_result := (all_char stk gattc_if conn count).1 in
      let count := (all_char stk gattc_if conn count).2 in
      for_each (seqZ 0 count) (λ i,
        ESP_LOGI TAG "Char UUID: 0x%04x handle %d"
          [uuid16_member (uuid (char_elem_result i));
           char_handle (char_elem_result i)]) ;;
      emit free_char_elems
    else mret ()
  else mret ().

Definition gattc_event_handler (event : esp_gattc_cb_event_t) (gattc_if : Z)
  : M unit :=
  match event with
  | ESP_GATTC_REG_EVT _ _ =>
      ESP_LOGI TAG "GATTC Registered, starting connect... conectando ao MOT-U105" [] ;;
      write (set_gattc_if_global gattc_if) ;;
      gif ← read gattc_if_global ;
      emit (esp_ble_gattc_open gif target_bda BLE_ADDR_TYPE_PUBLIC true)
  | ESP_GATTC_OPEN_EVT status conn_id =>
      if status =? ESP_GATT_OK then
        ESP_LOGI TAG "GATTC connected to MOT-U105" [] ;;
        write (set_gattc_conn_id_global conn_id) ;;
        write (set_connected true) ;;
        emit (esp_ble_gattc_search_service gattc_if conn_id None)
      else
        ESP_LOGE TAG "Failed to open GATTC MOT-U105 conn, status 0x%x" [status]
  | ESP_GATTC_SEARCH_RES_EVT _ _ _ srvc_id =>
      match srvc_id with
      | UUID16 uuid16 => ESP_LOGI TAG "Service found UUID16: 0x%04x" [uuid16]
      | _ => mret ()
      end
  | ESP_GATTC_SEARCH_CMPL_EVT _ _ =>
      ESP_LOGI TAG "Service search complete, now listing characteristics..." [] ;;
      list_characteristics gattc_if
  | ESP_GATTC_NOTIFY_EVT _ _ value value_len =>
      ESP_LOGI TAG "Notify received, len=%d" [value_len] ;;
      emit (esp_log_buffer_hex TAG (take (Z.to_nat value_len) value))
  | ESP_GATTC_CLOSE_EVT _ _
  | ESP_GATTC_DISCONNECT_EVT _ _
  | ESP_GATTC_OTHER_EVT _ =>
      mret ()
  end.

(** A non-zero [esp_err_t] from the configuration call is logged through
    [esp_err_to_name]; the code is kept as the argument. *)
Definition gatts_event_handler (event : esp_gatts_cb_event_t) (gatts_if : Z)
  : M unit :=
  match event with
  | ESP_GATTS_REG_EVT _ _ =>
      ESP_LOGI TAG "GATTS Registered, starting advertising..." [] ;;
      emit (esp_ble_gap_set_device_name LOCAL_DEVICE_NAME) ;;
      prepare_service_data ;;
      adv ← read adv_data ;
      emit (esp_ble_gap_config_adv_data adv) ;;
      let ret := config_adv_data_ret stk in
      if ret =? 0 then mret ()
      else ESP_LOGE TAG "esp_ble_gap_config_adv_data failed: %s" [ret]
  | ESP_GATTS_CONNECT_EVT _ =>
      ESP_LOGI TAG "GATTS App Mobile connected as client" []
  | ESP_GATTS_DISCONNECT_EVT _ _ =>
      ESP_LOGI TAG "GATTS App Mobile disconnected" []
  | ESP_GATTS_OTHER_EVT _ =>
      mret ()
  end.

End Handlers.

(** ** The dispatch loop

    Bluedroid delivers events one at a time to the callback registered for
    their kind.  A delivery pairs the event with the replies the stack
    gives while its handler runs. *)

Inductive bt_event : Type :=
  | GAP (event : esp_gap_ble_cb_event_t)
  | GATTC (event : esp_gattc_cb_event_t) (gattc_if : Z)
  | GATTS (event : esp_gatts_cb_event_t) (gatts_if : Z).

Definition delivery : Type := stack_replies * bt_event.

Definition dispatch (d : delivery) : M unit :=
  match d.2 with
  | GAP event => gap_event_handler event
  | GATTC event gattc_if => gattc_event_handler d.1 event gattc_if
  | GATTS event gatts_if => gatts_event_handler d.1 event gatts_if
  end.

Fixpoint deliver_all (ds : list delivery) : M unit :=
  match ds with
  | [] => mret ()
  | d :: rest => dispatch d ;; deliver_all rest
  end.

(** The globals and the trace after a sequence of deliveries. *)
Definition globals_after (ds : list delivery) (g : globals) : globals :=
  globals_of (deliver_all ds g).
Definition trace_after (ds : list delivery) (g : globals) : list call :=
  trace_of (deliver_all ds g).

(** A stack that reports no attribute, for runs in which the replies do
    not matter. *)
Definition no_char_elem : esp_gattc_char_elem_t :=
  {| char_handle := 0; properties := 0; uuid := UUID16 0 |}.

Definition quiet_stack : stack_replies := {|
  attr_count := λ _ _, 0;
  malloc_succeeds := λ _, true;
  all_char := λ _ _ _, (λ _, no_char_elem, 0);
  config_adv_data_ret := 0
|}.

(** The stack estimates [estimate] characteristics, lets [malloc] succeed
    or not, and on the fetch fills the buffer from [cs] and reports its
    length. *)
Definition stack_reporting (estimate : Z) (malloc_ok : bool)
    (cs : list esp_gattc_char_elem_t) : stack_replies := {|
  attr_count := λ _ _, estimate;
  malloc_succeeds := λ _, malloc_ok;
  all_char := λ _ _ _,
    (λ i, default no_char_elem (cs !! Z.to_nat i), Z.of_nat (length cs));
  config_adv_data_ret := 0
|}.

(** ** Observations on deliveries and traces *)

(** The connection id carried by a client open event whose status is
    [ESP_GATT_OK]. *)
Definition opened_conn (d : delivery) : option Z :=
  match d.2 with
  | GATTC (ESP_GATTC_OPEN_EVT status conn_id) _ =>
      if status =? ESP_GATT_OK then Some conn_id else None
  | _ => None
  end.

Definition opened_ok (d : delivery) : bool :=
  match opened_conn d with Some _ => true | None => false end.

(** The connection id of the most recent successful open, if any. *)
Definition last_ok_open (ds : list delivery) : option Z := last (omap opened_conn ds).

(** Client events after which the link to the target is down: a
    disconnect, or an open whose status is not [ESP_GATT_OK]. *)
Definition connection_down (d : delivery) : bool :=
  match d.2 with
  | GATTC (ESP_GATTC_DISCONNECT_EVT _ _) _ => true
  | GATTC (ESP_GATTC_OPEN_EVT status _) _ => negb (status =? ESP_GATT_OK)
  | _ => false
  end.

(** The stored client link: the [connected] flag with the connection id. *)
Definition client_link (g : globals) : bool * Z :=
  (connected g, gattc_conn_id_global g).

Definition is_adv_data_set_complete (d : delivery) : bool :=
  match d.2 with
  | GAP (ESP_GAP_BLE_ADV_DATA_SET_COMPLETE_EVT _) => true
  | _ => false
  end.

Definition is_start_advertising (c : call) : bool :=
  match c with
  | esp_ble_gap_start_advertising _ => true
  | _ => false
  end.

(** How many times [esp_ble_gap_start_advertising] occurs in a trace. *)
Definition starts_in (tr : list call) : nat :=
  length (List.filter is_start_advertising tr).

(** Requests to the GATT client API, as opposed to logging and memory
    management. *)
Definition is_gattc_request (c : call) : bool :=
  match c with
  | esp_ble_gattc_open _ _ _ _
  | esp_ble_gattc_search_service _ _ _
  | esp_ble_gattc_get_attr_count _ _ _ _ _ _
  | esp_ble_gattc_get_all_char _ _ _ _ _ _ => true
  | _ => false
  end.

(** The only record of discovered services the program produces is its
    log: the UUID printed by a ["Service found UUID16"] line. *)
Definition logged_service (c : call) : option Z :=
  match c with
  | esp_log LOGI _ fmt [u] =>
      if String.eqb fmt "Service found UUID16: 0x%04x" then Some u else None
  | _ => None
  end.

Definition services_logged (tr : list call) : list Z := omap logged_service tr.

(** The 16-bit UUID of a delivered service-found event, if it has one. *)
Definition found_uuid16 (d : delivery) : option Z :=
  match d.2 with
  | GATTC (ESP_GATTC_SEARCH_RES_EVT _ _ _ (UUID16 u)) _ => Some u
  | _ => None
  end.

(** The log line of one fetched characteristic. *)
Definition char_line (char_elem_result : Z → esp_gattc_char_elem_t) (i : Z) : call :=
  esp_log LOGI TAG "Char UUID: 0x%04x handle %d"
    [uuid16_member (uuid (char_elem_result i)); char_handle (char_elem_result i)].

Definition is_char_line (c : call) : bool :=
  match c with
  | esp_log LOGI _ fmt _ => String.eqb fmt "Char UUID: 0x%04x handle %d"
  | _ => false
  end.

(** How many characteristics a trace reports. *)
Definition chars_logged (tr : list call) : nat :=
  length (List.filter is_char_line tr).

(** The advertising service-data record in the words of the
    specification: the 16-bit UUID, low byte first, then the payload. *)
Definition uuid16_little_endian (u : Z) : list Z := [u mod 256; (u / 256) mod 256].

Definition service_data_record (u : Z) (payload : list Z) : list Z :=
  uuid16_little_endian u ++ payload.

(** The calls of the characteristic listing on connection [conn]: the
    count query, then (for a positive count) the allocation, then (for a
    successful allocation) the fetch, one line per reported entry and the
    release of the buffer. *)
Definition listing_trace (stk : stack_replies) (gattc_if conn : Z) : list call :=
  let count := attr_count stk gattc_if conn in
  esp_ble_gattc_get_attr_count gattc_if conn ESP_GATT_DB_CHARACTERISTIC 0 0 0 ::
  (if 0 <? count then
     malloc_char_elems count ::
     (if malloc_succeeds stk count then
        esp_ble_gattc_get_all_char gattc_if conn 0 0 count 0 ::
        map (char_line (all_char stk gattc_if conn count).1)
            (seqZ 0 (all_char stk gattc_if conn count).2) ++
        [free_char_elems]
      else [])
   else []).

(** ** Sample deliveries

    Concrete events used to run the handlers: the client interface is 3,
    [0x85] is a generic GATT error status and [0x08] the connection-timeout
    disconnect reason. *)

Definition open_succeeds (conn_id : Z) : delivery :=
  (quiet_stack, GATTC (ESP_GATTC_OPEN_EVT ESP_GATT_OK conn_id) 3).

Definition open_fails (conn_id : Z) : delivery :=
  (quiet_stack, GATTC (ESP_GATTC_OPEN_EVT 0x85 conn_id) 3).

Definition link_drops (conn_id : Z) : delivery :=
  (quiet_stack, GATTC (ESP_GATTC_DISCONNECT_EVT 0x08 conn_id) 3).

Definition client_registers : delivery :=
  (quiet_stack, GATTC (ESP_GATTC_REG_EVT 0 0) 3).

Definition adv_data_programmed (status : Z) : delivery :=
  (quiet_stack, GAP (ESP_GAP_BLE_ADV_DATA_SET_COMPLETE_EVT status)).

Definition one_characteristic : list esp_gattc_char_elem_t :=
  [{| char_handle := 42; properties := 0x10; uuid := UUID16 0x2A1C |}].

Definition search_completes (conn_id : Z) : delivery :=
  (stack_reporting 1 true one_characteristic,
   GATTC (ESP_GATTC_SEARCH_CMPL_EVT 0 conn_id) 3).

Definition service_found (conn_id : Z) (srvc_id : esp_bt_uuid_t) : delivery :=
  (quiet_stack, GATTC (ESP_GATTC_SEARCH_RES_EVT conn_id 1 9 srvc_id) 3).

Definition server_registers : delivery :=
  (quiet_stack, GATTS (ESP_GATTS_REG_EVT 0 0) 4).

Definition notification : delivery :=
  (quiet_stack, GATTC (ESP_GATTC_NOTIFY_EVT 1 42 [0x17; 0x2A] 2) 3).

(** ** Further observations on deliveries and traces *)

(** Deliveries whose handler runs [prepare_service_data]. *)
Definition prepares_service_data (d : delivery) : bool :=
  match d.2 with
  | GAP (ESP_GAP_BLE_ADV_DATA_SET_COMPLETE_EVT _) => true
  | GATTS (ESP_GATTS_REG_EVT _ _) _ => true
  | _ => false
  end.

(** The interface a client registration event arrives on. *)
Definition registered_if (d : delivery) : option Z :=
  match d.2 with
  | GATTC (ESP_GATTC_REG_EVT _ _) gattc_if => Some gattc_if
  | _ => None
  end.

Definition is_client_registration (d : delivery) : bool :=
  match registered_if d with Some _ => true | None => false end.

Definition is_search_complete (d : delivery) : bool :=
  match d.2 with
  | GATTC (ESP_GATTC_SEARCH_CMPL_EVT _ _) _ => true
  | _ => false
  end.

(** The deliveries whose handler assigns to a file-scope variable. *)
Definition writes_globals (d : delivery) : bool :=
  prepares_service_data d || is_client_registration d || opened_ok d.

Definition count_calls (p : call → bool) (tr : list call) : nat :=
  length (List.filter p tr).

Definition is_open_request (c : call) : bool :=
  match c with esp_ble_gattc_open _ _ _ _ => true | _ => false end.

Definition is_search_request (c : call) : bool :=
  match c with esp_ble_gattc_search_service _ _ _ => true | _ => false end.

Definition is_malloc (c : call) : bool :=
  match c with malloc_char_elems _ => true | _ => false end.

Definition is_free (c : call) : bool :=
  match c with free_char_elems => true | _ => false end.

(** An open request is a direct connection to the public address
    [target_bda]; other calls are not constrained. *)
Definition opens_target (c : call) : Prop :=
  match c with
  | esp_ble_gattc_open _ remote_bda remote_addr_type is_direct =>
      remote_bda = target_bda ∧ remote_addr_type = BLE_ADDR_TYPE_PUBLIC ∧
      is_direct = true
  | _ => True
  end.

(** A service search has no filter UUID. *)
Definition searches_all_services (c : call) : Prop :=
  match c with
  | esp_ble_gattc_search_service _ _ filter_uuid => filter_uuid = None
  | _ => True
  end.

(** An advertising configuration carries the prepared record, and its two
    length members agree with the buffers they describe. *)
Definition advertises_record (c : call) : Prop :=
  match c with
  | esp_ble_gap_config_adv_data adv =>
      p_service_data adv = service_data_record service_data_uuid service_data_payload ∧
      service_data_len adv = Z.of_nat (length (p_service_data adv)) ∧
      service_uuid_len adv = Z.of_nat (length (p_service_uuid adv))
  | _ => True
  end.

(** The kinds of call the characteristic listing can make. *)
Definition listing_call (c : call) : Prop :=
  match c with
  | esp_log _ _ _ _
  | esp_ble_gattc_get_attr_count _ _ _ _ _ _
  | esp_ble_gattc_get_all_char _ _ _ _ _ _
  | malloc_char_elems _
  | free_char_elems => True
  | _ => False
  end.

(** ** [app_main]

    The start-up routine touches none of the file-scope variables; it is
    a straight sequence of ESP-IDF calls, most of them wrapped in
    [ESP_ERROR_CHECK].  Its computations either finish or abort, and
    record the calls made up to that point. *)

Inductive esp_bt_mode_t : Type := ESP_BT_MODE_BLE | ESP_BT_MODE_CLASSIC_BT.
Inductive esp_mac_type_t : Type := ESP_MAC_BT.

(** The function registered as a callback. *)
Inductive callback : Type :=
  | cb_gap_event_handler
  | cb_gattc_event_handler
  | cb_gatts_event_handler.

Inductive boot_call : Type :=
  | logged (c : call)
  | nvs_flash_init
  | nvs_flash_erase
  | esp_bt_controller_mem_release (mode : esp_bt_mode_t)
  | esp_base_mac_addr_set (mac : list Z)
  | esp_read_mac (type : esp_mac_type_t)
  | esp_bt_controller_init
  | esp_bt_controller_enable (mode : esp_bt_mode_t)
  | esp_bluedroid_init
  | esp_bluedroid_enable
  | esp_ble_gap_register_callback (cb : callback)
  | esp_ble_gattc_register_callback (cb : callback)
  | esp_ble_gatts_register_callback (cb : callback)
  | esp_ble_gattc_app_register (app_id : Z)
  | esp_ble_gatts_app_register (app_id : Z)
  | esp_error_check_failed (rc : Z).

(** The [esp_err_t] each start-up call returns; [nvs_flash_init] can be
    called twice.  [read_mac_value] is what [esp_read_mac] writes into
    [new_mac]. *)
Record boot_replies : Type := BootReplies {
  nvs_flash_init_ret : Z;
  nvs_flash_erase_ret : Z;
  nvs_flash_init_again_ret : Z;
  controller_mem_release_ret : Z;
  base_mac_addr_set_ret : Z;
  read_mac_ret : Z;
  read_mac_value : list Z;
  controller_init_ret : Z;
  controller_enable_ret : Z;
  bluedroid_init_ret : Z;
  bluedroid_enable_ret : Z;
  gap_register_callback_ret : Z;
  gattc_register_callback_ret : Z;
  gatts_register_callback_ret : Z;
  gattc_app_register_ret : Z;
  gatts_app_register_ret : Z
}.

Definition ESP_OK : Z := 0.

(** [None] as result: the program was aborted. *)
Definition B (A : Type) : Type := option A * list boot_call.

#[export] Instance B_ret : MRet B := λ A a, (Some a, []).
#[export] Instance B_bind : MBind B := λ A A' k m,
  match m.1 with
  | Some a => ((k a).1, m.2 ++ (k a).2)
  | None => (None, m.2)
  end.

(** A call into ESP-IDF and the code it returns. *)
Definition esp_call (c : boot_call) (ret : Z) : B Z := (Some ret, [c]).

Definition boot_log (lvl : log_level) (tag fmt : string) (args : list Z) : B unit :=
  (Some (), [logged (esp_log lvl tag fmt args)]).

Definition finished {A} (r : B A) : bool :=
  match r.1 with Some _ => true | None => false end.

Section Boot.

(** [ESP_ERROR_CHECK] comes from ESP-IDF's [esp_err.h]: it evaluates its
    argument once and, unless the build defines [NDEBUG], aborts the
    program when the code is not [ESP_OK].  The two NVS error codes come
    from [nvs.h]. *)
Context (NDEBUG : bool).
Context (ESP_ERR_NVS_NO_FREE_PAGES ESP_ERR_NVS_NEW_VERSION_FOUND : Z).
Context (r : boot_replies).

Definition ESP_ERROR_CHECK (x : B Z) : B unit :=
  err_rc ← x ;
  if NDEBUG || (err_rc =? ESP_OK) then mret ()
  else (None, [esp_error_check_failed err_rc]).

Definition app_main : B unit :=
  boot_log LOGI TAG "Starting BLE Proxy..." [] ;;
  ret ← esp_call nvs_flash_init (nvs_flash_init_ret r) ;
  (if (ret =? ESP_ERR_NVS_NO_FREE_PAGES) || (ret =? ESP_ERR_NVS_NEW_VERSION_FOUND) then
     ESP_ERROR_CHECK (esp_call nvs_flash_erase (nvs_flash_erase_ret r)) ;;
     ESP_ERROR_CHECK (esp_call nvs_flash_init (nvs_flash_init_again_ret r))
   else mret ()) ;;
  ESP_ERROR_CHECK (esp_call (esp_bt_controller_mem_release ESP_BT_MODE_CLASSIC_BT)
                     (controller_mem_release_ret r)) ;;
  let new_mac := [0xFE; 0x98; 0x00; 0x30; 0x39; 0x45] in
  ret ← esp_call (esp_base_mac_addr_set new_mac) (base_mac_addr_set_ret r) ;
  (if ret =? ESP_OK then mret ()
   else boot_log LOGE TAG "Falha ao setar MAC base: %s" [ret]) ;;
  ret ← esp_call (esp_read_mac ESP_MAC_BT) (read_mac_ret r) ;
  let new_mac := read_mac_value r in
  (if ret =? ESP_OK then
     boot_log LOGI TAG "Novo MAC BLE configurado: %02X:%02X:%02X:%02X:%02X:%02X" new_mac
   else mret ()) ;;
  ESP_ERROR_CHECK (esp_call esp_bt_controller_init (controller_init_ret r)) ;;
  ESP_ERROR_CHECK (esp_call (esp_bt_controller_enable ESP_BT_MODE_BLE)
                     (controller_enable_ret r)) ;;
  ESP_ERROR_CHECK (esp_call esp_bluedroid_init (bluedroid_init_ret r)) ;;
  ESP_ERROR_CHECK (esp_call esp_bluedroid_enable (bluedroid_enable_ret r)) ;;
  ESP_ERROR_CHECK (esp_call (esp_ble_gap_register_callback cb_gap_event_handler)
                     (gap_register_callback_ret r)) ;;
  ESP_ERROR_CHECK (esp_call (esp_ble_gattc_register_callback cb_gattc_event_handler)
                     (gattc_register_callback_ret r)) ;;
  ESP_ERROR_CHECK (esp_call (esp_ble_gatts_register_callback cb_gatts_event_handler)
                     (gatts_register_callback_ret r)) ;;
  ESP_ERROR_CHECK (esp_call (esp_ble_gattc_app_register 0) (gattc_app_register_ret r)) ;;
  ESP_ERROR_CHECK (esp_call (esp_ble_gatts_app_register 0) (gatts_app_register_ret r)).

(** The codes of the checked calls that [app_main] can reach, in program
    order: the erase and the second initialisation only when the first
    initialisation reported one of the two NVS conditions. *)
Definition checked_codes : list Z :=
  (if (nvs_flash_init_ret r =? ESP_ERR_NVS_NO_FREE_PAGES) ||
      (nvs_flash_init_ret r =? ESP_ERR_NVS_NEW_VERSION_FOUND)
   then [nvs_flash_erase_ret r; nvs_flash_init_again_ret r] else []) ++
  [controller_mem_release_ret r; controller_init_ret r; controller_enable_ret r;
   bluedroid_init_ret r; bluedroid_enable_ret r;
   gap_register_callback_ret r; gattc_register_callback_ret r;
   gatts_register_callback_ret r; gattc_app_register_ret r; gatts_app_register_ret r].

End Boot.

(** *** The calls of [app_main], spelled out *)

(** The calls made by a run of checked calls: each call in turn, up to
    and including the first whose code fails the check, which is followed
    by the abort. *)
Fixpoint checked_trace (NDEBUG : bool) (steps : list (boot_call * Z)) : list boot_call :=
  match steps with
  | [] => []
  | (c, rc) :: rest =>
      c :: (if NDEBUG || (rc =? ESP_OK) then checked_trace NDEBUG rest
            else [esp_error_check_failed rc])
  end.

Definition all_pass (NDEBUG : bool) (steps : list (boot_call * Z)) : bool :=
  NDEBUG || forallb (λ s, s.2 =? ESP_OK) steps.

(** The checked calls up to the MAC address set-up, and those after it. *)
Definition first_steps (NO_FREE_PAGES NEW_VERSION_FOUND : Z) (r : boot_replies)
  : list (boot_call * Z) :=
  (if (nvs_flash_init_ret r =? NO_FREE_PAGES) ||
      (nvs_flash_init_ret r =? NEW_VERSION_FOUND)
   then [(nvs_flash_erase, nvs_flash_erase_ret r);
         (nvs_flash_init, nvs_flash_init_again_ret r)]
   else []) ++
  [(esp_bt_controller_mem_release ESP_BT_MODE_CLASSIC_BT, controller_mem_release_ret r)].

Definition last_steps (r : boot_replies) : list (boot_call * Z) :=
  [(esp_bt_controller_init, controller_init_ret r);
   (esp_bt_controller_enable ESP_BT_MODE_BLE, controller_enable_ret r);
   (esp_bluedroid_init, bluedroid_init_ret r);
   (esp_bluedroid_enable, bluedroid_enable_ret r);
   (esp_ble_gap_register_callback cb_gap_event_handler, gap_register_callback_ret r);
   (esp_ble_gattc_register_callback cb_gattc_event_handler, gattc_register_callback_ret r);
   (esp_ble_gatts_register_callback cb_gatts_event_handler, gatts_register_callback_ret r);
   (esp_ble_gattc_app_register 0, gattc_app_register_ret r);
   (esp_ble_gatts_app_register 0, gatts_app_register_ret r)].

(** The unchecked calls that set and read back the MAC address. *)
Definition mac_calls (r : boot_replies) : list boot_call :=
  esp_base_mac_addr_set [0xFE; 0x98; 0x00; 0x30; 0x39; 0x45] ::
  (if base_mac_addr_set_ret r =? ESP_OK then []
   else [logged (esp_log LOGE TAG "Falha ao setar MAC base: %s"
                   [base_mac_addr_set_ret r])]) ++
  esp_read_mac ESP_MAC_BT ::
  (if read_mac_ret r =? ESP_OK then
     [logged (esp_log LOGI TAG
                "Novo MAC BLE configurado: %02X:%02X:%02X:%02X:%02X:%02X"
                (read_mac_value r))]
   else []).

Definition count_boot_calls (p : boot_call → bool) (tr : list boot_call) : nat :=
  length (List.filter p tr).

Definition is_nvs_flash_erase (c : boot_call) : bool :=
  match c with nvs_flash_erase => true | _ => false end.

Definition is_nvs_flash_init (c : boot_call) : bool :=
  match c with nvs_flash_init => true | _ => false end.

Definition is_app_register (c : boot_call) : bool :=
  match c with
  | esp_ble_gattc_app_register _ | esp_ble_gatts_app_register _ => true
  | _ => false
  end.

(** Replies of a start-up in which every call succeeds, and of one in
    which the controller cannot be initialised. *)
Definition all_ok : boot_replies := {|
  nvs_flash_init_ret := 0; nvs_flash_erase_ret := 0; nvs_flash_init_again_ret := 0;
  controller_mem_release_ret := 0; base_mac_addr_set_ret := 0;
  read_mac_ret := 0; read_mac_value := [0xFE; 0x98; 0x00; 0x30; 0x39; 0x47];
  controller_init_ret := 0; controller_enable_ret := 0;
  bluedroid_init_ret := 0; bluedroid_enable_ret := 0;
  gap_register_callback_ret := 0; gattc_register_callback_ret := 0;
  gatts_register_callback_ret := 0;
  gattc_app_register_ret := 0; gatts_app_register_ret := 0
|}.

Definition controller_init_fails : boot_replies := {|
  nvs_flash_init_ret := 0; nvs_flash_erase_ret := 0; nvs_flash_init_again_ret := 0;
  controller_mem_release_ret := 0; base_mac_addr_set_ret := 0;
  read_mac_ret := 0; read_mac_value := [0xFE; 0x98; 0x00; 0x30; 0x39; 0x47];
  controller_init_ret := 0x103; controller_enable_ret := 0;
  bluedroid_init_ret := 0; bluedroid_enable_ret := 0;
  gap_register_callback_ret := 0; gattc_register_callback_ret := 0;
  gatts_register_callback_ret := 0;
  gattc_app_register_ret := 0; gatts_app_register_ret := 0
|}.

(** ** Running the monad *)

Lemma run_bind {A B} (m : M A) (k : A → M B) (g : globals) :
  (m ≫= k) g =
  ((k (m g).1.1 (m g).1.2).1.1, (k (m g).1.1 (m g).1.2).1.2,
   (m g).2 ++ (k (m g).1.1 (m g).1.2).2).
Proof. reflexivity. Qed.

Lemma for_each_emit (f : Z → call) (idx : list Z) (g : globals) :
  for_each idx (λ i, emit (f i)) g = ((), g, map f idx).
Proof.
  induction idx as [|i idx IH]; [reflexivity|].
  cbn [for_each]. rewrite run_bind. cbn [emit fst snd]. rewrite IH. reflexivity.
Qed.

Lemma deliver_all_cons (d : delivery) (ds : list delivery) (g : globals) :
  deliver_all (d :: ds) g =
  ((), globals_after ds (globals_of (dispatch d g)),
   trace_of (dispatch d g) ++ trace_after ds (globals_of (dispatch d g))).
Proof.
  cbn [deliver_all]. rewrite run_bind.
  unfold globals_after, trace_after, globals_of, trace_of.
  destruct (deliver_all ds (dispatch d g).1.2) as [[[] g'] tr]. reflexivity.
Qed.

Lemma globals_after_cons (d : delivery) (ds : list delivery) (g : globals) :
  globals_after (d :: ds) g = globals_after ds (globals_of (dispatch d g)).
Proof. unfold globals_after at 1. rewrite deliver_all_cons. reflexivity. Qed.

Lemma trace_after_cons (d : delivery) (ds : list delivery) (g : globals) :
  trace_after (d :: ds) g =
  trace_of (dispatch d g) ++ trace_after ds (globals_of (dispatch d g)).
Proof. unfold trace_after at 1. rewrite deliver_all_cons. reflexivity. Qed.

Lemma globals_after_app (ds1 ds2 : list delivery) (g : globals) :
  globals_after (ds1 ++ ds2) g = globals_after ds2 (globals_after ds1 g).
Proof.
  revert g. induction ds1 as [|d ds1 IH]; intros g; [reflexivity|].
  cbn [app]. rewrite !globals_after_cons. apply IH.
Qed.

Lemma trace_after_app (ds1 ds2 : list delivery) (g : globals) :
  trace_after (ds1 ++ ds2) g =
  trace_after ds1 g ++ trace_after ds2 (globals_after ds1 g).
Proof.
  revert g. induction ds1 as [|d ds1 IH]; intros g; [reflexivity|].
  cbn [app]. rewrite !trace_after_cons, globals_after_cons, IH.
  by rewrite (assoc_L (++)).
Qed.

(** ** The handlers, case by case *)

Lemma list_characteristics_run (stk : stack_replies) (gattc_if : Z) (g : globals) :
  list_characteristics stk gattc_if g =
  ((), g, listing_trace stk gattc_if (gattc_conn_id_global g)).
Proof.
  unfold list_characteristics, listing_trace.
  rewrite run_bind. cbn [read fst snd app]. rewrite run_bind. cbn [emit fst snd app].
  destruct (0 <? _); [|reflexivity].
  rewrite run_bind. cbn [emit fst snd app].
  destruct (malloc_succeeds _ _); [|reflexivity].
  rewrite run_bind. cbn [read fst snd app]. rewrite run_bind. cbn [emit fst snd app].
  rewrite run_bind.
  change (λ i : Z, ESP_LOGI TAG "Char UUID: 0x%04x handle %d" _)
    with (λ i : Z, emit (char_line
           (all_char stk gattc_if (gattc_conn_id_global g)
              (attr_count stk gattc_if (gattc_conn_id_global g))).1 i)).
  rewrite for_each_emit. reflexivity.
Qed.

Lemma search_cmpl_run (stk : stack_replies) (status conn_id gattc_if : Z) (g : globals) :
  gattc_event_handler stk (ESP_GATTC_SEARCH_CMPL_EVT status conn_id) gattc_if g =
  ((), g,
   esp_log LOGI TAG "Service search complete, now listing characteristics..." [] ::
   listing_trace stk gattc_if (gattc_conn_id_global g)).
Proof.
  cbn [gattc_event_handler]. rewrite run_bind, list_characteristics_run. reflexivity.
Qed.

Lemma failed_open_run (stk : stack_replies) (status conn_id gattc_if : Z) (g : globals) :
  status ≠ ESP_GATT_OK →
  gattc_event_handler stk (ESP_GATTC_OPEN_EVT status conn_id) gattc_if g =
  ((), g,
   [esp_log LOGE TAG "Failed to open GATTC MOT-U105 conn, status 0x%x" [status]]).
Proof.
  intros Hst. cbn [gattc_event_handler].
  destruct (Z.eqb_spec status ESP_GATT_OK) as [->|_]; [done|reflexivity].
Qed.

(** What one delivery does to the stored client link. *)
Lemma dispatch_client_link (d : delivery) (g : globals) :
  client_link (globals_of (dispatch d g)) =
  from_option (λ c, (true, c)) (client_link g) (opened_conn d).
Proof.
  destruct d as [stk [e|e gattc_if|e gatts_if]]; unfold dispatch, opened_conn;
    cbn [fst snd].
  - destruct e; reflexivity.
  - destruct e as [| status conn_id | ? ? ? srvc | | | | |];
      try reflexivity.
    + cbn [gattc_event_handler]. destruct (status =? ESP_GATT_OK); reflexivity.
    + destruct srvc; reflexivity.
    + rewrite search_cmpl_run. reflexivity.
  - destruct e; try reflexivity.
    cbn. destruct (config_adv_data_ret stk =? 0); reflexivity.
Qed.

Lemma client_link_after (ds : list delivery) (g : globals) :
  client_link (globals_after ds g) =
  from_option (λ c, (true, c)) (client_link g) (last_ok_open ds).
Proof.
  unfold last_ok_open. revert g.
  induction ds as [|d ds IH]; intros g; [reflexivity|].
  rewrite globals_after_cons, IH, dispatch_client_link. cbn [omap list_omap].
  destruct (opened_conn d) as [c|]; [|reflexivity].
  rewrite last_cons. destruct (last (omap opened_conn ds)); reflexivity.
Qed.

Lemma connected_after (ds : list delivery) (g : globals) :
  connected (globals_after ds g) = connected g || existsb opened_ok ds.
Proof.
  revert g. induction ds as [|d ds IH]; intros g.
  - cbn. by rewrite orb_false_r.
  - rewrite globals_after_cons, IH. cbn [existsb].
    pose proof (dispatch_client_link d g) as Hd.
    apply (f_equal fst) in Hd. cbn [client_link fst] in Hd. rewrite Hd.
    unfold opened_ok. destruct (opened_conn d) as [c|]; cbn [from_option fst].
    + by rewrite orb_true_r.
    + reflexivity.
Qed.

(** ** What the traces contain *)

Lemma starts_in_app (tr1 tr2 : list call) :
  starts_in (tr1 ++ tr2) = (starts_in tr1 + starts_in tr2)%nat.
Proof. unfold starts_in. by rewrite List.filter_app, length_app. Qed.

Lemma chars_logged_app (tr1 tr2 : list call) :
  chars_logged (tr1 ++ tr2) = (chars_logged tr1 + chars_logged tr2)%nat.
Proof. unfold chars_logged. by rewrite List.filter_app, length_app. Qed.

Lemma char_lines_no_start (buf : Z → esp_gattc_char_elem_t) (idx : list Z) :
  List.filter is_start_advertising (map (char_line buf) idx) = [].
Proof. induction idx as [|i idx IH]; [reflexivity|exact IH]. Qed.

Lemma char_lines_no_service (buf : Z → esp_gattc_char_elem_t) (idx : list Z) :
  services_logged (map (char_line buf) idx) = [].
Proof. induction idx as [|i idx IH]; [reflexivity|exact IH]. Qed.

Lemma char_lines_all_counted (buf : Z → esp_gattc_char_elem_t) (idx : list Z) :
  chars_logged (map (char_line buf) idx) = length idx.
Proof.
  unfold chars_logged. induction idx as [|i idx IH]; [reflexivity|].
  cbn. by rewrite IH.
Qed.

Lemma listing_trace_no_start (stk : stack_replies) (gattc_if conn : Z) :
  starts_in (listing_trace stk gattc_if conn) = 0%nat.
Proof.
  unfold starts_in, listing_trace. cbn [List.filter is_start_advertising].
  destruct (0 <? _); [|reflexivity]. cbn [List.filter is_start_advertising].
  destruct (malloc_succeeds _ _); [|reflexivity]. cbn [List.filter is_start_advertising].
  by rewrite List.filter_app, char_lines_no_start.
Qed.

Lemma listing_trace_no_service (stk : stack_replies) (gattc_if conn : Z) :
  services_logged (listing_trace stk gattc_if conn) = [].
Proof.
  unfold services_logged, listing_trace. cbn [omap list_omap logged_service].
  destruct (0 <? _); [|reflexivity]. cbn [omap list_omap logged_service].
  destruct (malloc_succeeds _ _); [|reflexivity]. cbn [omap list_omap logged_service].
  rewrite omap_app. fold (services_logged (map (char_line
    (all_char stk gattc_if conn (attr_count stk gattc_if conn)).1)
    (seqZ 0 (all_char stk gattc_if conn (attr_count stk gattc_if conn)).2))).
  by rewrite char_lines_no_service.
Qed.

(** One delivery starts advertising once if it is the data-set-complete
    event and not at all otherwise. *)
Lemma dispatch_starts (d : delivery) (g : globals) :
  starts_in (trace_of (dispatch d g)) =
  if is_adv_data_set_complete d then 1%nat else 0%nat.
Proof.
  destruct d as [stk [e|e gattc_if|e gatts_if]];
    unfold dispatch, is_adv_data_set_complete; cbn [fst snd].
  - destruct e; reflexivity.
  - destruct e as [| status conn_id | ? ? ? srvc | | | | |]; try reflexivity.
    + cbn [gattc_event_handler]. destruct (status =? ESP_GATT_OK); reflexivity.
    + destruct srvc; reflexivity.
    + rewrite search_cmpl_run. unfold trace_of. cbn [snd].
      apply (listing_trace_no_start stk gattc_if (gattc_conn_id_global g)).
  - destruct e; try reflexivity.
    cbn. destruct (config_adv_data_ret stk =? 0); reflexivity.
Qed.

(** One delivery logs a discovered service exactly when it is a
    service-found event whose UUID has the 16-bit form. *)
Lemma dispatch_services (d : delivery) (g : globals) :
  services_logged (trace_of (dispatch d g)) = option_list (found_uuid16 d).
Proof.
  destruct d as [stk [e|e gattc_if|e gatts_if]];
    unfold dispatch, found_uuid16; cbn [fst snd].
  - destruct e; reflexivity.
  - destruct e as [| status conn_id | ? ? ? srvc | | | | |]; try reflexivity.
    + cbn [gattc_event_handler]. destruct (status =? ESP_GATT_OK); reflexivity.
    + destruct srvc; reflexivity.
    + rewrite search_cmpl_run. unfold trace_of. cbn [snd].
      apply (listing_trace_no_service stk gattc_if (gattc_conn_id_global g)).
  - destruct e; try reflexivity.
    cbn. destruct (config_adv_data_ret stk =? 0); reflexivity.
Qed.

(** Discovery events and link-down events leave every global as it was. *)
Lemma search_res_run (stk : stack_replies) (conn_id sh eh gattc_if : Z)
    (srvc_id : esp_bt_uuid_t) (g : globals) :
  gattc_event_handler stk (ESP_GATTC_SEARCH_RES_EVT conn_id sh eh srvc_id) gattc_if g =
  ((), g,
   match srvc_id with
   | UUID16 u => [esp_log LOGI TAG "Service found UUID16: 0x%04x" [u]]
   | _ => []
   end).
Proof. destruct srvc_id; reflexivity. Qed.

Lemma disconnect_run (stk : stack_replies) (reason conn_id gattc_if : Z) (g : globals) :
  dispatch (stk, GATTC (ESP_GATTC_DISCONNECT_EVT reason conn_id) gattc_if) g = ((), g, []).
Proof. reflexivity. Qed.

(** * The claims *)

(** ** The [connected] flag *)

(** C1, as stated, fails: after a successful open, neither a disconnect
    event nor a failed open brings [connected] back to [false].  Both
    events mean that the link is down, and in both runs the flag is still
    [true] afterwards. *)
Lemma connected_not_cleared_when_link_goes_down :
  connection_down (link_drops 1) = true ∧
  connected (globals_after [open_succeeds 1; link_drops 1] initial_globals) = true ∧
  connection_down (open_fails 2) = true ∧
  connected (globals_after [open_succeeds 1; open_fails 2] initial_globals) = true.
Proof. repeat split; reflexivity. Qed.

(** C1, amended: over every sequence of deliveries and from every state,
    [connected] is true afterwards exactly when it was true before or some
    open event with status [ESP_GATT_OK] was delivered.  A successful open
    is the only event that writes the flag, and nothing (disconnect and
    failed open included) ever sets it back to [false]. *)
Theorem connected_set_by_successful_open_only (ds : list delivery) (g : globals) :
  connected (globals_after ds g) = connected g || existsb opened_ok ds.
Proof. exact (connected_after ds g). Qed.

(** C10: from the initial state and after any sequence of deliveries, the
    [connected] flag and the stored connection id are those of the most
    recent successful open: [true] with that open's [conn_id] if there was
    one, and the initial [false] with [0] otherwise.  The two globals are
    never out of step. *)
Theorem connected_goes_with_latest_conn_id (ds : list delivery) :
  client_link (globals_after ds initial_globals) =
  match last_ok_open ds with
  | Some conn_id => (true, conn_id)
  | None => (false, 0)
  end.
Proof. rewrite client_link_after. destruct (last_ok_open ds); reflexivity. Qed.

(** ** Opening the connection to the target *)

(** C4, as stated, fails: an open event with a non-OK status that arrives
    after an earlier successful open leaves [connected = true] and the
    earlier, non-zero connection id in place. *)
Lemma failed_open_leaves_stale_link :
  opened_ok (open_fails 2) = false ∧
  client_link (globals_after [open_succeeds 5; open_fails 2] initial_globals) = (true, 5).
Proof. split; reflexivity. Qed.

(** C4, amended: for every open event with a non-OK status the handler
    changes no global, and its whole trace is one error line carrying the
    status it received, so no service search and no new open request is
    issued.  When no open has succeeded before, the stored link is
    therefore still the initial one: not connected, connection id 0. *)
Theorem failed_open_only_reports_status
    (stk : stack_replies) (status conn_id gattc_if : Z) :
  status ≠ ESP_GATT_OK →
  (∀ g : globals,
     gattc_event_handler stk (ESP_GATTC_OPEN_EVT status conn_id) gattc_if g =
     ((), g,
      [esp_log LOGE TAG "Failed to open GATTC MOT-U105 conn, status 0x%x" [status]])) ∧
  (∀ ds : list delivery,
     last_ok_open ds = None →
     client_link
       (globals_after (ds ++ [(stk, GATTC (ESP_GATTC_OPEN_EVT status conn_id) gattc_if)])
          initial_globals) = (false, 0)).
Proof.
  intros Hst. split.
  - intros g. by apply failed_open_run.
  - intros ds Hnone. rewrite globals_after_app.
    unfold globals_after at 1, globals_of. cbn [deliver_all]. rewrite run_bind.
    unfold dispatch. cbn [fst snd]. rewrite failed_open_run by done.
    cbn [fst snd mret M_ret]. fold (globals_after ds initial_globals).
    rewrite client_link_after, Hnone. reflexivity.
Qed.

Lemma failed_open_only_reports_status_witness :
  gattc_event_handler quiet_stack (ESP_GATTC_OPEN_EVT 0x85 0) 3 initial_globals =
  ((), initial_globals,
   [esp_log LOGE TAG "Failed to open GATTC MOT-U105 conn, status 0x%x" [0x85]]) ∧
  client_link (globals_after ([client_registers] ++ [open_fails 0]) initial_globals) =
  (false, 0).
Proof.
  assert (Hst : 0x85 ≠ ESP_GATT_OK) by (unfold ESP_GATT_OK; lia).
  split.
  - exact (proj1 (failed_open_only_reports_status quiet_stack 0x85 0 3 Hst) initial_globals).
  - exact (proj2 (failed_open_only_reports_status quiet_stack 0x85 0 3 Hst)
             [client_registers] eq_refl).
Defined.

(** C5: the registration event stores the interface it arrived on and at
    once requests a direct connection to the fixed target address
    [FE:98:00:30:39:45].  An open event with status [ESP_GATT_OK] leaves
    [gattc_conn_id_global] equal to the connection id it carries and
    [connected] equal to [true], whatever they were before, keeps the
    other globals, and in the same invocation issues a service search on
    that interface and connection with a null filter.  Both handlers run
    without any further event. *)
Theorem registration_opens_and_open_searches
    (stk : stack_replies) (status app_id conn_id gattc_if : Z) (g : globals) :
  gattc_event_handler stk (ESP_GATTC_REG_EVT status app_id) gattc_if g =
  ((),
   {| service_data := service_data g;
      gattc_if_global := gattc_if;
      gattc_conn_id_global := gattc_conn_id_global g;
      connected := connected g |},
   [esp_log LOGI TAG "GATTC Registered, starting connect... conectando ao MOT-U105" [];
    esp_ble_gattc_open gattc_if [0xFE; 0x98; 0x00; 0x30; 0x39; 0x45]
      BLE_ADDR_TYPE_PUBLIC true]) ∧
  gattc_event_handler stk (ESP_GATTC_OPEN_EVT ESP_GATT_OK conn_id) gattc_if g =
  ((),
   {| service_data := service_data g;
      gattc_if_global := gattc_if_global g;
      gattc_conn_id_global := conn_id;
      connected := true |},
   [esp_log LOGI TAG "GATTC connected to MOT-U105" [];
    esp_ble_gattc_search_service gattc_if conn_id None]) ∧
  connected
    (globals_of (gattc_event_handler stk (ESP_GATTC_OPEN_EVT ESP_GATT_OK conn_id)
                   gattc_if g)) = true ∧
  gattc_conn_id_global
    (globals_of (gattc_event_handler stk (ESP_GATTC_OPEN_EVT ESP_GATT_OK conn_id)
                   gattc_if g)) = conn_id ∧
  gattc_if_global
    (globals_of (gattc_event_handler stk (ESP_GATTC_REG_EVT status app_id)
                   gattc_if g)) = gattc_if.
Proof. repeat split; reflexivity. Qed.

(** ** The server role *)

(** C9: a server-role connect or disconnect event only writes a log line.
    Every global, the client's interface, connection id and [connected]
    flag among them, is left as it was, and the trace holds no request to
    the GATT client API. *)
Theorem server_connection_events_leave_client_alone
    (stk : stack_replies) (conn_id reason gatts_if : Z) (g : globals) :
  gatts_event_handler stk (ESP_GATTS_CONNECT_EVT conn_id) gatts_if g =
  ((), g, [esp_log LOGI TAG "GATTS App Mobile connected as client" []]) ∧
  gatts_event_handler stk (ESP_GATTS_DISCONNECT_EVT conn_id reason) gatts_if g =
  ((), g, [esp_log LOGI TAG "GATTS App Mobile disconnected" []]) ∧
  existsb is_gattc_request
    (trace_of (gatts_event_handler stk (ESP_GATTS_CONNECT_EVT conn_id) gatts_if g) ++
     trace_of (gatts_event_handler stk (ESP_GATTS_DISCONNECT_EVT conn_id reason)
                 gatts_if g)) = false.
Proof. repeat split; reflexivity. Qed.

(** ** Advertising *)

(** C6, as stated, fails: the completion event delivered twice starts
    advertising twice, and a completion event that reports a failure
    status starts it as well. *)
Lemma redelivered_completion_starts_again :
  starts_in (trace_after [adv_data_programmed 0; adv_data_programmed 0] initial_globals)
  = 2%nat ∧
  starts_in (trace_after [adv_data_programmed 1] initial_globals) = 1%nat.
Proof. split; reflexivity. Qed.

(** C6, amended: over every sequence of deliveries to the three handlers,
    [esp_ble_gap_start_advertising] is called exactly once for each
    delivered advertising-data-set-complete event, whatever its status and
    whether or not it repeats an earlier one, and by no other event.  In
    particular no start happens before the first such event. *)
Theorem one_start_per_completion_event (ds : list delivery) (g : globals) :
  starts_in (trace_after ds g) =
  length (List.filter is_adv_data_set_complete ds).
Proof.
  revert g. induction ds as [|d ds IH]; intros g; [reflexivity|].
  rewrite trace_after_cons, starts_in_app, IH, dispatch_starts.
  cbn [List.filter]. destruct (is_adv_data_set_complete d); reflexivity.
Qed.

(** ** Characteristic enumeration *)

(** C7: on search-complete, (a) an attribute count of 0 ends the handler
    after the count query, with no allocation, no fetch and no
    characteristic line; (b) a positive count with a failed allocation
    ends it after the allocation attempt, again without fetch, and the
    handler returns normally; (c) otherwise the fetch is issued with the
    estimate and the handler logs one line per index below the count that
    the fetch reports back, then releases the buffer. *)
Theorem characteristic_listing_guards
    (stk : stack_replies) (status conn_id gattc_if : Z) (g : globals) :
  (attr_count stk gattc_if (gattc_conn_id_global g) = 0 →
     gattc_event_handler stk (ESP_GATTC_SEARCH_CMPL_EVT status conn_id) gattc_if g =
     ((), g,
      [esp_log LOGI TAG "Service search complete, now listing characteristics..." [];
       esp_ble_gattc_get_attr_count gattc_if (gattc_conn_id_global g)
         ESP_GATT_DB_CHARACTERISTIC 0 0 0])) ∧
  (0 < attr_count stk gattc_if (gattc_conn_id_global g) →
   malloc_succeeds stk (attr_count stk gattc_if (gattc_conn_id_global g)) = false →
     gattc_event_handler stk (ESP_GATTC_SEARCH_CMPL_EVT status conn_id) gattc_if g =
     ((), g,
      [esp_log LOGI TAG "Service search complete, now listing characteristics..." [];
       esp_ble_gattc_get_attr_count gattc_if (gattc_conn_id_global g)
         ESP_GATT_DB_CHARACTERISTIC 0 0 0;
       malloc_char_elems (attr_count stk gattc_if (gattc_conn_id_global g))])) ∧
  (0 < attr_count stk gattc_if (gattc_conn_id_global g) →
   malloc_succeeds stk (attr_count stk gattc_if (gattc_conn_id_global g)) = true →
     gattc_event_handler stk (ESP_GATTC_SEARCH_CMPL_EVT status conn_id) gattc_if g =
     ((), g,
      [esp_log LOGI TAG "Service search complete, now listing characteristics..." [];
       esp_ble_gattc_get_attr_count gattc_if (gattc_conn_id_global g)
         ESP_GATT_DB_CHARACTERISTIC 0 0 0;
       malloc_char_elems (attr_count stk gattc_if (gattc_conn_id_global g));
       esp_ble_gattc_get_all_char gattc_if (gattc_conn_id_global g) 0 0
         (attr_count stk gattc_if (gattc_conn_id_global g)) 0] ++
      map (char_line
             (all_char stk gattc_if (gattc_conn_id_global g)
                (attr_count stk gattc_if (gattc_conn_id_global g))).1)
          (seqZ 0 (all_char stk gattc_if (gattc_conn_id_global g)
                     (attr_count stk gattc_if (gattc_conn_id_global g))).2) ++
      [free_char_elems]) ∧
     chars_logged
       (trace_of (gattc_event_handler stk (ESP_GATTC_SEARCH_CMPL_EVT status conn_id)
                    gattc_if g)) =
     Z.to_nat (all_char stk gattc_if (gattc_conn_id_global g)
                 (attr_count stk gattc_if (gattc_conn_id_global g))).2).
Proof.
  rewrite search_cmpl_run. unfold listing_trace, trace_of. cbn [snd].
  split; [|split].
  - intros ->. reflexivity.
  - intros Hpos ->.
    by destruct (Z.ltb_spec 0 (attr_count stk gattc_if (gattc_conn_id_global g))); [|lia].
  - intros Hpos ->.
    destruct (Z.ltb_spec 0 (attr_count stk gattc_if (gattc_conn_id_global g))); [|lia].
    split; [reflexivity|].
    match goal with
    | |- chars_logged (?a :: ?b :: ?c :: ?d :: ?l ++ ?r) = _ =>
        change (chars_logged ([a; b; c; d] ++ l ++ r) =
                Z.to_nat (all_char stk gattc_if (gattc_conn_id_global g)
                  (attr_count stk gattc_if (gattc_conn_id_global g))).2)
    end.
    rewrite !chars_logged_app, char_lines_all_counted, length_seqZ.
    etransitivity; [|apply Nat.add_0_r]. reflexivity.
Qed.

Lemma characteristic_listing_guards_witness :
  gattc_event_handler quiet_stack (ESP_GATTC_SEARCH_CMPL_EVT 0 1) 3 initial_globals =
  ((), initial_globals,
   [esp_log LOGI TAG "Service search complete, now listing characteristics..." [];
    esp_ble_gattc_get_attr_count 3 0 ESP_GATT_DB_CHARACTERISTIC 0 0 0]) ∧
  gattc_event_handler (stack_reporting 2 false []) (ESP_GATTC_SEARCH_CMPL_EVT 0 1) 3
    initial_globals =
  ((), initial_globals,
   [esp_log LOGI TAG "Service search complete, now listing characteristics..." [];
    esp_ble_gattc_get_attr_count 3 0 ESP_GATT_DB_CHARACTERISTIC 0 0 0;
    malloc_char_elems 2]) ∧
  chars_logged
    (trace_of (gattc_event_handler (stack_reporting 3 true one_characteristic)
                 (ESP_GATTC_SEARCH_CMPL_EVT 0 1) 3 initial_globals)) = 1%nat.
Proof.
  split; [|split].
  - exact (proj1 (characteristic_listing_guards quiet_stack 0 1 3 initial_globals)
             eq_refl).
  - exact (proj1 (proj2 (characteristic_listing_guards (stack_reporting 2 false [])
                           0 1 3 initial_globals)) eq_refl eq_refl).
  - exact (proj2 (proj2 (proj2 (characteristic_listing_guards
                                  (stack_reporting 3 true one_characteristic)
                                  0 1 3 initial_globals)) eq_refl eq_refl)).
Defined.

(** ** The advertised service data *)

(** C8: whenever the buffer has room for the UUID and the payload,
    [prepare_service_data] leaves in it the 16-bit UUID, low byte first,
    followed by the payload unchanged.  For the program's own UUID
    [0xC1C5] and its 20-byte payload the buffer then holds 22 bytes:
    [C5 C1] and the 20 payload bytes. *)
Theorem service_data_is_uuid_then_payload :
  (∀ (uuid : Z) (payload buf : list Z),
     length buf = (2 + length payload)%nat →
     fill_service_data uuid payload buf = service_data_record uuid payload) ∧
  (∀ g : globals,
     length (service_data g) = 22%nat →
     service_data_uuid = 0xC1C5 ∧
     length service_data_payload = 20%nat ∧
     service_data (globals_of (prepare_service_data g)) =
       [0xC5; 0xC1] ++ service_data_payload ∧
     length (service_data (globals_of (prepare_service_data g))) = 22%nat).
Proof.
  assert (Hgen : ∀ (uuid : Z) (payload buf : list Z),
     length buf = (2 + length payload)%nat →
     fill_service_data uuid payload buf = service_data_record uuid payload).
  { intros uuid payload buf Hlen.
    destruct buf as [|b0 [|b1 rest]]; try discriminate Hlen.
    injection Hlen as Hlen.
    unfold fill_service_data, service_data_record, uuid16_little_endian.
    cbn [insert list_insert]. rewrite !list_inserts_cons.
    rewrite <- (app_nil_r rest), list_inserts_0_r, app_nil_r by done.
    change 0xFF with (Z.ones 8).
    rewrite !Z.land_ones, Z.shiftr_div_pow2 by lia. reflexivity. }
  split; [exact Hgen|].
  intros g Hlen. split; [reflexivity|]. split; [reflexivity|].
  assert (Hrec : service_data (globals_of (prepare_service_data g)) =
                 [0xC5; 0xC1] ++ service_data_payload).
  { unfold prepare_service_data, write, globals_of, set_service_data.
    cbn [fst snd service_data]. rewrite Hgen by (rewrite Hlen; reflexivity).
    reflexivity. }
  split; [exact Hrec|]. rewrite Hrec. reflexivity.
Qed.

Lemma service_data_is_uuid_then_payload_witness :
  fill_service_data 0x1809 [7; 8; 9] [0; 0; 0; 0; 0] = [0x09; 0x18; 7; 8; 9] ∧
  service_data (globals_of (prepare_service_data initial_globals)) =
    [0xC5; 0xC1; 0xFE; 0x98; 0x00; 0x30; 0x39; 0x44; 0xE4; 0x0C; 0x7F; 0x08;
     0x1D; 0x04; 0x00; 0x00; 0x04; 0x46; 0x60; 0x09; 0x00; 0x0A].
Proof.
  split.
  - exact (proj1 service_data_is_uuid_then_payload 0x1809 [7; 8; 9] [0; 0; 0; 0; 0]
             eq_refl).
  - exact (proj1 (proj2 (proj2 (proj2 service_data_is_uuid_then_payload
                                  initial_globals eq_refl)))).
Defined.

(** ** Service discovery *)

(** C2, as stated, fails: after registration, a successful open on
    connection 1 and a disconnect of that connection, a late
    search-complete event is not ignored.  The handler queries the
    attribute count and fetches the characteristics on the stale
    connection id 1, and a late service-found event is logged as usual. *)
Lemma late_discovery_events_are_acted_on :
  trace_of (dispatch (search_completes 1)
              (globals_after [client_registers; open_succeeds 1; link_drops 1]
                 initial_globals)) =
  [esp_log LOGI TAG "Service search complete, now listing characteristics..." [];
   esp_ble_gattc_get_attr_count 3 1 ESP_GATT_DB_CHARACTERISTIC 0 0 0;
   malloc_char_elems 1;
   esp_ble_gattc_get_all_char 3 1 0 0 1 0;
   esp_log LOGI TAG "Char UUID: 0x%04x handle %d" [0x2A1C; 42];
   free_char_elems] ∧
  trace_of (dispatch (service_found 1 (UUID16 0x1809))
              (globals_after [client_registers; open_succeeds 1; link_drops 1]
                 initial_globals)) =
  [esp_log LOGI TAG "Service found UUID16: 0x%04x" [0x1809]] ∧
  existsb is_gattc_request
    (trace_of (dispatch (search_completes 1)
                 (globals_after [client_registers; open_succeeds 1; link_drops 1]
                    initial_globals))) = true.
Proof. repeat split; reflexivity. Qed.

(** C2, amended: a disconnect event changes nothing, so every later
    event, discovery events included, is handled exactly as if the
    disconnect had not been delivered.  The discovery cases read neither
    [connected] nor the connection id carried by the event: whatever the
    flag, the stored connection id and the event's connection id are, a
    service-found event leaves the globals as they were and logs the UUID
    when it has the 16-bit form (and does nothing otherwise), and a
    search-complete event leaves the globals as they were and runs the
    characteristic listing, starting with the attribute-count query, on
    the stored connection id.  No attribute table is kept. *)
Theorem discovery_not_gated_by_disconnect :
  (∀ (ds1 ds2 : list delivery) (stk : stack_replies) (reason conn_id gattc_if : Z)
     (g : globals),
     globals_after
       (ds1 ++ (stk, GATTC (ESP_GATTC_DISCONNECT_EVT reason conn_id) gattc_if) :: ds2) g
     = globals_after (ds1 ++ ds2) g ∧
     trace_after
       (ds1 ++ (stk, GATTC (ESP_GATTC_DISCONNECT_EVT reason conn_id) gattc_if) :: ds2) g
     = trace_after (ds1 ++ ds2) g) ∧
  (∀ (stk : stack_replies) (conn_id start_handle end_handle gattc_if : Z)
     (srvc_id : esp_bt_uuid_t)
     (buffer : list Z) (stored_if stored_conn_id : Z) (flag : bool),
     gattc_event_handler stk
       (ESP_GATTC_SEARCH_RES_EVT conn_id start_handle end_handle srvc_id) gattc_if
       {| service_data := buffer; gattc_if_global := stored_if;
          gattc_conn_id_global := stored_conn_id; connected := flag |} =
     ((),
      {| service_data := buffer; gattc_if_global := stored_if;
         gattc_conn_id_global := stored_conn_id; connected := flag |},
      match srvc_id with
      | UUID16 u => [esp_log LOGI TAG "Service found UUID16: 0x%04x" [u]]
      | _ => []
      end)) ∧
  (∀ (stk : stack_replies) (status conn_id gattc_if : Z)
     (buffer : list Z) (stored_if stored_conn_id : Z) (flag : bool),
     gattc_event_handler stk (ESP_GATTC_SEARCH_CMPL_EVT status conn_id) gattc_if
       {| service_data := buffer; gattc_if_global := stored_if;
          gattc_conn_id_global := stored_conn_id; connected := flag |} =
     ((),
      {| service_data := buffer; gattc_if_global := stored_if;
         gattc_conn_id_global := stored_conn_id; connected := flag |},
      esp_log LOGI TAG "Service search complete, now listing characteristics..." [] ::
      esp_ble_gattc_get_attr_count gattc_if stored_conn_id
        ESP_GATT_DB_CHARACTERISTIC 0 0 0 ::
      (if 0 <? attr_count stk gattc_if stored_conn_id then
         malloc_char_elems (attr_count stk gattc_if stored_conn_id) ::
         (if malloc_succeeds stk (attr_count stk gattc_if stored_conn_id) then
            esp_ble_gattc_get_all_char gattc_if stored_conn_id 0 0
              (attr_count stk gattc_if stored_conn_id) 0 ::
            map (char_line
                   (all_char stk gattc_if stored_conn_id
                      (attr_count stk gattc_if stored_conn_id)).1)
                (seqZ 0 (all_char stk gattc_if stored_conn_id
                           (attr_count stk gattc_if stored_conn_id)).2) ++
            [free_char_elems]
          else [])
       else []))) ∧
  (∀ (ds : list delivery) (stk stk' : stack_replies)
     (reason conn_id conn_id' start_handle end_handle gattc_if gattc_if' u : Z)
     (g : globals),
     trace_of
       (dispatch
          (stk', GATTC (ESP_GATTC_SEARCH_RES_EVT conn_id' start_handle end_handle
                          (UUID16 u)) gattc_if')
          (globals_after
             (ds ++ [(stk, GATTC (ESP_GATTC_DISCONNECT_EVT reason conn_id) gattc_if)])
             g)) =
     [esp_log LOGI TAG "Service found UUID16: 0x%04x" [u]]).
Proof.
  split; [|split; [|split]].
  - intros ds1 ds2 stk reason conn_id gattc_if g.
    rewrite !globals_after_app, !trace_after_app.
    rewrite globals_after_cons, trace_after_cons, disconnect_run.
    split; reflexivity.
  - intros. apply search_res_run.
  - intros. rewrite search_cmpl_run. reflexivity.
  - intros. unfold dispatch. cbn [fst snd]. rewrite search_res_run. reflexivity.
Qed.

(** C3, as stated, fails: a service-found event stores nothing.  For a
    service with a 128-bit UUID the handler returns with the globals
    unchanged and an empty trace; for one with a 16-bit UUID the only
    effect is a log line that carries the UUID and not the handle range
    (here 1 to 9). *)
Lemma service_found_appends_nothing :
  dispatch (service_found 1 (UUID128 service_uuid128)) initial_globals =
  ((), initial_globals, []) ∧
  dispatch (service_found 1 (UUID16 0x1809)) initial_globals =
  ((), initial_globals, [esp_log LOGI TAG "Service found UUID16: 0x%04x" [0x1809]]).
Proof. split; reflexivity. Qed.

(** C3, amended: the program keeps no table of discovered services.  A
    service-found event leaves every global as it was; it writes one log
    line with the UUID when the UUID has the 16-bit form and does nothing
    otherwise.  Over every sequence of deliveries, the services named in
    the log are the 16-bit UUIDs of the service-found events, in the order
    in which the events were delivered. *)
Theorem services_logged_in_delivery_order :
  (∀ (stk : stack_replies) (conn_id start_handle end_handle gattc_if : Z)
     (srvc_id : esp_bt_uuid_t) (g : globals),
     gattc_event_handler stk
       (ESP_GATTC_SEARCH_RES_EVT conn_id start_handle end_handle srvc_id) gattc_if g =
     ((), g,
      match srvc_id with
      | UUID16 u => [esp_log LOGI TAG "Service found UUID16: 0x%04x" [u]]
      | _ => []
      end)) ∧
  (∀ (ds : list delivery) (g : globals),
     services_logged (trace_after ds g) = omap found_uuid16 ds).
Proof.
  split; [intros; apply search_res_run|].
  intros ds. induction ds as [|d ds IH]; intros g; [reflexivity|].
  rewrite trace_after_cons. unfold services_logged in *.
  rewrite omap_app, IH. cbn [omap list_omap].
  pose proof (dispatch_services d g) as Hd. unfold services_logged in Hd.
  rewrite Hd. destruct (found_uuid16 d); reflexivity.
Qed.

(** * Further properties of the handlers *)

Lemma gatts_reg_run (stk : stack_replies) (status app_id gatts_if : Z) (g : globals) :
  gatts_event_handler stk (ESP_GATTS_REG_EVT status app_id) gatts_if g =
  ((), set_service_data (fill_service_data service_data_uuid service_data_payload) g,
   [esp_log LOGI TAG "GATTS Registered, starting advertising..." [];
    esp_ble_gap_set_device_name LOCAL_DEVICE_NAME;
    esp_ble_gap_config_adv_data
      (adv_data (set_service_data
                   (fill_service_data service_data_uuid service_data_payload) g))] ++
   (if config_adv_data_ret stk =? 0 then []
    else [esp_log LOGE TAG "esp_ble_gap_config_adv_data failed: %s"
            [config_adv_data_ret stk]])).
Proof.
  cbn [gatts_event_handler]. rewrite !run_bind. cbn.
  destruct (config_adv_data_ret stk =? 0); reflexivity.
Qed.

(** Case analysis on a delivery, with the branching handlers rewritten to
    their explicit results. *)
Ltac dispatch_cases d :=
  let stk := fresh "stk" in
  let e := fresh "e" in
  let gi := fresh "gi" in
  let status := fresh "status" in
  let srvc := fresh "srvc" in
  destruct d as [stk [e|e gi|e gi]]; unfold dispatch; cbn [fst snd];
  [ destruct e
  | destruct e as [| status ? | ? ? ? srvc | | | | |];
    [ | cbn [gattc_event_handler]; destruct (status =? ESP_GATT_OK) eqn:?
      | rewrite search_res_run; destruct srvc
      | rewrite search_cmpl_run | | | | ]
  | destruct e; [rewrite gatts_reg_run | | | ] ].

Lemma fill_service_data_record (uuid : Z) (payload buf : list Z) :
  length buf = (2 + length payload)%nat →
  fill_service_data uuid payload buf = service_data_record uuid payload.
Proof.
  intros Hlen. destruct buf as [|b0 [|b1 rest]]; try discriminate Hlen.
  injection Hlen as Hlen.
  unfold fill_service_data, service_data_record, uuid16_little_endian.
  cbn [insert list_insert]. rewrite !list_inserts_cons.
  rewrite <- (app_nil_r rest), list_inserts_0_r, app_nil_r by done.
  change 0xFF with (Z.ones 8).
  rewrite !Z.land_ones, Z.shiftr_div_pow2 by lia. reflexivity.
Qed.

Lemma dispatch_service_data (d : delivery) (g : globals) :
  service_data (globals_of (dispatch d g)) =
  if prepares_service_data d
  then fill_service_data service_data_uuid service_data_payload (service_data g)
  else service_data g.
Proof. dispatch_cases d; reflexivity. Qed.

Lemma dispatch_gattc_if (d : delivery) (g : globals) :
  gattc_if_global (globals_of (dispatch d g)) =
  from_option id (gattc_if_global g) (registered_if d).
Proof. dispatch_cases d; reflexivity. Qed.

Lemma count_calls_app (p : call → bool) (tr1 tr2 : list call) :
  count_calls p (tr1 ++ tr2) = (count_calls p tr1 + count_calls p tr2)%nat.
Proof. unfold count_calls. by rewrite List.filter_app, length_app. Qed.

Lemma count_calls_none (p : call → bool) (Q : call → Prop) (tr : list call) :
  (∀ c, Q c → p c = false) → Forall Q tr → count_calls p tr = 0%nat.
Proof.
  intros Hp Htr. unfold count_calls.
  induction Htr as [|c tr Hc _ IH]; [reflexivity|].
  cbn [List.filter]. by rewrite (Hp c Hc).
Qed.

Lemma listing_trace_calls (stk : stack_replies) (gattc_if conn : Z) :
  Forall listing_call (listing_trace stk gattc_if conn).
Proof.
  unfold listing_trace. constructor; [exact I|].
  destruct (0 <? _); [|constructor]. constructor; [exact I|].
  destruct (malloc_succeeds _ _); [|constructor]. constructor; [exact I|].
  apply Forall_app. split; [|by repeat constructor].
  apply Forall_map, Forall_true. intros i. exact I.
Qed.

Lemma trace_after_Forall (P : call → Prop) (Inv : globals → Prop) :
  (∀ d g, Inv g →
     Forall P (trace_of (dispatch d g)) ∧ Inv (globals_of (dispatch d g))) →
  ∀ ds g, Inv g → Forall P (trace_after ds g).
Proof.
  intros Hstep ds. induction ds as [|d ds IH]; intros g Hg; [constructor|].
  rewrite trace_after_cons. destruct (Hstep d g Hg) as [Htr Hinv].
  apply Forall_app. split; [exact Htr|]. by apply IH.
Qed.

Lemma listing_trace_Forall (P : call → Prop) (stk : stack_replies) (gattc_if conn : Z) :
  (∀ c, listing_call c → P c) → Forall P (listing_trace stk gattc_if conn).
Proof. intros HP. eapply Forall_impl; [apply listing_trace_calls|exact HP]. Qed.

(** Closes [Forall P (trace_of (dispatch d g))] for a predicate [P] that
    holds of every listing call, after [dispatch_cases]. *)
Ltac trace_Forall :=
  unfold trace_of; cbn [snd];
  try match goal with
      | |- context [config_adv_data_ret ?stk =? 0] =>
          destruct (config_adv_data_ret stk =? 0)
      end;
  cbn [app];
  repeat first
    [ apply Forall_nil_2
    | apply listing_trace_Forall; intros [] Hc; first [exact I | destruct Hc]
    | apply Forall_cons_2; [first [exact I | done]|] ].

Lemma dispatch_opens_target (d : delivery) (g : globals) :
  Forall opens_target (trace_of (dispatch d g)).
Proof. dispatch_cases d; trace_Forall. Qed.

Lemma dispatch_searches_all (d : delivery) (g : globals) :
  Forall searches_all_services (trace_of (dispatch d g)).
Proof. dispatch_cases d; trace_Forall. Qed.

Lemma dispatch_advertises_record (d : delivery) (g : globals) :
  length (service_data g) = 22%nat →
  Forall advertises_record (trace_of (dispatch d g)).
Proof.
  intros Hlen. dispatch_cases d; trace_Forall.
  all: apply Forall_cons_2;
    [|repeat (apply Forall_cons_2; [exact I|]); apply Forall_nil_2].
  all: cbn [advertises_record adv_data set_service_data service_data p_service_data
            service_data_len service_uuid_len p_service_uuid];
    rewrite fill_service_data_record by (rewrite Hlen; reflexivity);
    repeat split.
Qed.

Lemma dispatch_service_data_length (d : delivery) (g : globals) :
  length (service_data g) = 22%nat →
  length (service_data (globals_of (dispatch d g))) = 22%nat.
Proof.
  intros Hlen. rewrite dispatch_service_data.
  destruct (prepares_service_data d); [|exact Hlen].
  rewrite fill_service_data_record by (rewrite Hlen; reflexivity). reflexivity.
Qed.

Lemma count_calls_trace_after (p : call → bool) (f : delivery → bool) :
  (∀ d g, count_calls p (trace_of (dispatch d g)) = if f d then 1%nat else 0%nat) →
  ∀ ds g, count_calls p (trace_after ds g) = length (List.filter f ds).
Proof.
  intros Hstep ds. induction ds as [|d ds IH]; intros g; [reflexivity|].
  rewrite trace_after_cons, count_calls_app, IH, Hstep.
  cbn [List.filter]. destruct (f d); reflexivity.
Qed.

Lemma count_calls_listing (p : call → bool) (stk : stack_replies) (gattc_if conn : Z) :
  (∀ c, listing_call c → p c = false) →
  count_calls p (listing_trace stk gattc_if conn) = 0%nat.
Proof. intros Hp. eapply count_calls_none; [exact Hp|apply listing_trace_calls]. Qed.

Lemma dispatch_open_requests (d : delivery) (g : globals) :
  count_calls is_open_request (trace_of (dispatch d g)) =
  if is_client_registration d then 1%nat else 0%nat.
Proof.
  dispatch_cases d; try reflexivity.
  - unfold trace_of. cbn [snd].
    change (count_calls is_open_request (?c :: ?l)) with (count_calls is_open_request l).
    apply count_calls_listing. by intros [].
  - unfold trace_of. cbn [snd].
    destruct (config_adv_data_ret stk =? 0); reflexivity.
Qed.

Lemma dispatch_search_requests (d : delivery) (g : globals) :
  count_calls is_search_request (trace_of (dispatch d g)) =
  if opened_ok d then 1%nat else 0%nat.
Proof.
  unfold opened_ok, opened_conn.
  dispatch_cases d; try reflexivity.
  - unfold trace_of. cbn [snd].
    change (count_calls is_search_request (?c :: ?l)) with (count_calls is_search_request l).
    apply count_calls_listing. by intros [].
  - unfold trace_of. cbn [snd].
    destruct (config_adv_data_ret stk =? 0); reflexivity.
Qed.

Lemma char_lines_filtered (p : call → bool) (buf : Z → esp_gattc_char_elem_t)
    (idx : list Z) :
  (∀ lvl tag fmt args, p (esp_log lvl tag fmt args) = false) →
  List.filter p (map (char_line buf) idx) = [].
Proof.
  intros Hp. induction idx as [|i idx IH]; [reflexivity|].
  cbn [map List.filter]. unfold char_line at 1. by rewrite Hp.
Qed.

(** The listing allocates at most once, and releases exactly when the
    allocation succeeded. *)
Lemma listing_trace_allocations (stk : stack_replies) (gattc_if conn : Z) :
  count_calls is_malloc (listing_trace stk gattc_if conn) =
    (if 0 <? attr_count stk gattc_if conn then 1%nat else 0%nat) ∧
  count_calls is_free (listing_trace stk gattc_if conn) =
    (if (0 <? attr_count stk gattc_if conn) &&
        malloc_succeeds stk (attr_count stk gattc_if conn)
     then 1%nat else 0%nat).
Proof.
  unfold count_calls, listing_trace. cbn [List.filter is_malloc is_free].
  destruct (0 <? _); [|split; reflexivity]. cbn [List.filter is_malloc is_free andb].
  destruct (malloc_succeeds _ _); [|split; reflexivity].
  cbn [List.filter is_malloc is_free].
  rewrite !List.filter_app, !char_lines_filtered by done. split; reflexivity.
Qed.

Lemma dispatch_allocations (d : delivery) (g : globals) :
  (count_calls is_free (trace_of (dispatch d g)) ≤
   count_calls is_malloc (trace_of (dispatch d g)))%nat ∧
  (count_calls is_malloc (trace_of (dispatch d g)) ≤
   if is_search_complete d then 1 else 0)%nat ∧
  ((∀ n, malloc_succeeds d.1 n = true) →
   count_calls is_free (trace_of (dispatch d g)) =
   count_calls is_malloc (trace_of (dispatch d g))).
Proof.
  unfold is_search_complete.
  dispatch_cases d; unfold trace_of; cbn [fst snd];
    try match goal with
        | |- context [config_adv_data_ret ?stk =? 0] =>
            destruct (config_adv_data_ret stk =? 0)
        end;
    try (split; [|split]; [exact (le_n 0)|exact (le_n 0)|intros _; reflexivity]).
  change (count_calls is_free (?c :: ?l)) with (count_calls is_free l).
  change (count_calls is_malloc (?c :: ?l)) with (count_calls is_malloc l).
  match goal with
  | |- context [listing_trace ?s ?i ?c] =>
      destruct (listing_trace_allocations s i c) as [-> ->]
  end.
  repeat split.
  - destruct (0 <? _), (malloc_succeeds _ _); cbn; lia.
  - destruct (0 <? _); lia.
  - intros Hm. rewrite Hm. by destruct (0 <? _).
Qed.

(** ** The advertising buffer over a whole run *)

(** X1: the 22-byte [service_data] buffer keeps its size over every
    sequence of deliveries to the three handlers.  It holds the prepared
    record ([C5 C1] and the payload) as soon as one server registration or
    one advertising-data-set-complete event has been handled, and is left
    untouched by every other event. *)
Theorem service_data_after_any_run (ds : list delivery) (g : globals) :
  length (service_data g) = 22%nat →
  service_data (globals_after ds g) =
    (if existsb prepares_service_data ds
     then [0xC5; 0xC1] ++ service_data_payload
     else service_data g) ∧
  length (service_data (globals_after ds g)) = 22%nat.
Proof.
  revert g. induction ds as [|d ds IH]; intros g Hlen; [by split|].
  rewrite globals_after_cons.
  destruct (IH (globals_of (dispatch d g)) (dispatch_service_data_length d g Hlen))
    as [IHdata IHlen].
  split; [|exact IHlen].
  rewrite IHdata, dispatch_service_data. cbn [existsb].
  destruct (prepares_service_data d); cbn [orb]; [|reflexivity].
  rewrite fill_service_data_record by (rewrite Hlen; reflexivity).
  by destruct (existsb prepares_service_data ds).
Qed.

Lemma service_data_after_any_run_witness :
  service_data (globals_after [client_registers; server_registers; open_fails 1]
                  initial_globals) =
    [0xC5; 0xC1] ++ service_data_payload ∧
  length (service_data (globals_after [client_registers; server_registers; open_fails 1]
                          initial_globals)) = 22%nat.
Proof.
  exact (service_data_after_any_run [client_registers; server_registers; open_fails 1]
           initial_globals eq_refl).
Defined.

(** X2: in every run from the initial state, each advertising
    configuration handed to the stack carries the prepared record, a
    service-data length equal to the size of that buffer and a
    service-UUID length equal to the size of the UUID array. *)
Theorem every_adv_config_carries_record (ds : list delivery) :
  Forall advertises_record (trace_after ds initial_globals).
Proof.
  apply (trace_after_Forall advertises_record
           (λ g, length (service_data g) = 22%nat)); [|reflexivity].
  intros d g Hlen. split.
  - by apply dispatch_advertises_record.
  - by apply dispatch_service_data_length.
Qed.

(** ** Which events write the globals *)

(** X3: only four kinds of event assign to a file-scope variable: client
    registration, an open with status OK, server registration and
    advertising-data-set-complete.  A run made of any other events
    (notifications, discovery results, disconnects, failed opens, server
    connects, unnamed events) ends with every global as it started. *)
Theorem other_events_write_nothing (ds : list delivery) (g : globals) :
  existsb writes_globals ds = false → globals_after ds g = g.
Proof.
  revert g. induction ds as [|d ds IH]; intros g Hnone; [reflexivity|].
  cbn [existsb] in Hnone. apply orb_false_iff in Hnone as [Hd Hds].
  rewrite globals_after_cons.
  assert (Hstep : globals_of (dispatch d g) = g).
  { revert Hd. unfold writes_globals, prepares_service_data, is_client_registration,
      registered_if, opened_ok, opened_conn.
    dispatch_cases d; cbn; intros Hd; try discriminate Hd; reflexivity. }
  rewrite Hstep. by apply IH.
Qed.

Lemma other_events_write_nothing_witness :
  globals_after
    [link_drops 1; service_found 1 (UUID16 0x1809); search_completes 1;
     notification; open_fails 1]
    initial_globals = initial_globals.
Proof.
  exact (other_events_write_nothing
           [link_drops 1; service_found 1 (UUID16 0x1809); search_completes 1;
            notification; open_fails 1]
           initial_globals eq_refl).
Defined.

(** X4: after any run from the initial state, [gattc_if_global] is the
    interface of the most recent client registration event, and the
    initial 0 when there was none; no other event changes it. *)
Theorem stored_interface_is_latest_registration (ds : list delivery) :
  gattc_if_global (globals_after ds initial_globals) =
  default 0 (last (omap registered_if ds)).
Proof.
  change 0 with (gattc_if_global initial_globals) at 1.
  generalize initial_globals as g.
  induction ds as [|d ds IH]; intros g; [reflexivity|].
  rewrite globals_after_cons, IH, dispatch_gattc_if. cbn [omap list_omap].
  destruct (registered_if d) as [gattc_if|]; [|reflexivity].
  rewrite last_cons. by destruct (last (omap registered_if ds)).
Qed.

(** ** Requests to the GATT client API over a whole run *)

(** X5: whatever the events and their order, the program asks for a
    connection exactly once per client registration event and at no other
    time: not after a disconnect, not after a failed open, not when a
    mobile app connects.  Every such request is a direct connection to
    the public address [target_bda]. *)
Theorem one_open_request_per_registration (ds : list delivery) (g : globals) :
  count_calls is_open_request (trace_after ds g) =
    length (List.filter is_client_registration ds) ∧
  Forall opens_target (trace_after ds g).
Proof.
  split.
  - apply count_calls_trace_after. exact dispatch_open_requests.
  - apply (trace_after_Forall opens_target (λ _, True)); [|exact I].
    intros d g' _. split; [apply dispatch_opens_target|exact I].
Qed.

(** X6: a service search is issued exactly once per open event with
    status [ESP_GATT_OK] and by no other event, and always without a
    filter UUID. *)
Theorem one_search_per_successful_open (ds : list delivery) (g : globals) :
  count_calls is_search_request (trace_after ds g) =
    length (List.filter opened_ok ds) ∧
  Forall searches_all_services (trace_after ds g).
Proof.
  split.
  - apply count_calls_trace_after. exact dispatch_search_requests.
  - apply (trace_after_Forall searches_all_services (λ _, True)); [|exact I].
    intros d g' _. split; [apply dispatch_searches_all|exact I].
Qed.

(** ** The characteristic buffer *)

(** X7: over any run the program allocates the characteristic buffer at
    most once per search-complete event and never releases more buffers
    than it allocated.  When every allocation succeeds, each one is
    released again: the numbers of [malloc] and [free] calls are equal. *)
Theorem characteristic_buffer_is_released (ds : list delivery) (g : globals) :
  (count_calls is_free (trace_after ds g) ≤ count_calls is_malloc (trace_after ds g))%nat ∧
  (count_calls is_malloc (trace_after ds g) ≤
   length (List.filter is_search_complete ds))%nat ∧
  ((∀ d n, d ∈ ds → malloc_succeeds d.1 n = true) →
   count_calls is_free (trace_after ds g) = count_calls is_malloc (trace_after ds g)).
Proof.
  revert g. induction ds as [|d ds IH]; intros g.
  - repeat split; cbn; lia.
  - rewrite trace_after_cons, !count_calls_app. cbn [List.filter].
    destruct (dispatch_allocations d g) as (Hfm & Hm & Heq).
    destruct (IH (globals_of (dispatch d g))) as (IHfm & IHm & IHeq).
    split; [lia|]. split.
    + destruct (is_search_complete d); cbn [length]; lia.
    + intros Hall. rewrite Heq, IHeq; [reflexivity| |].
      * intros d' n Hd'. apply Hall. by right.
      * intros n. apply Hall. by left.
Qed.

Lemma characteristic_buffer_is_released_witness :
  count_calls is_free
    (trace_after [open_succeeds 1; search_completes 1] initial_globals) =
  count_calls is_malloc
    (trace_after [open_succeeds 1; search_completes 1] initial_globals).
Proof.
  apply (proj2 (proj2 (characteristic_buffer_is_released
                         [open_succeeds 1; search_completes 1] initial_globals))).
  intros d n Hd.
  apply list_elem_of_In in Hd. cbn in Hd.
  destruct Hd as [<-|[<-|[]]]; reflexivity.
Defined.

(** ** The bytes of the prepared record *)

Lemma le16_recompose (u : Z) :
  Z.lor (u mod 256) (Z.shiftl (u / 256 mod 256) 8) = u mod 65536.
Proof.
  change 256 with (2 ^ 8). change 65536 with (2 ^ 16).
  apply Z.bits_inj'. intros n Hn.
  rewrite Z.lor_spec, Z.shiftl_spec, !Z.testbit_mod_pow2 by lia.
  destruct (Z.ltb_spec n 8), (Z.ltb_spec n 16), (Z.ltb_spec (n - 8) 8);
    try lia; cbn [andb orb].
  - rewrite (Z.testbit_neg_r _ (n - 8)) by lia. by rewrite orb_false_r.
  - rewrite Z.div_pow2_bits by lia. f_equal. lia.
Qed.

(** X8: for any UUID value, also one wider than 16 bits, and any payload
    of bytes, every element [prepare_service_data] leaves in a buffer of
    the right size is a byte, and reading the first two bytes back as a
    little-endian 16-bit UUID (the way the program reads the [uuid16]
    member of a UUID) gives the UUID modulo 65536: the UUID itself when it
    fits 16 bits. *)
Theorem service_data_bytes_round_trip (uuid : Z) (payload buf : list Z) :
  length buf = (2 + length payload)%nat →
  Forall (λ b, 0 ≤ b < 256) payload →
  Forall (λ b, 0 ≤ b < 256) (fill_service_data uuid payload buf) ∧
  uuid16_member (UUID128 (fill_service_data uuid payload buf)) = uuid mod 65536 ∧
  (0 ≤ uuid < 65536 →
   uuid16_member (UUID128 (fill_service_data uuid payload buf)) = uuid).
Proof.
  intros Hlen Hpayload. rewrite fill_service_data_record by done.
  unfold service_data_record, uuid16_little_endian.
  assert (Hdec : uuid16_member (UUID128 ([uuid mod 256; uuid / 256 mod 256] ++ payload))
                 = uuid mod 65536) by apply le16_recompose.
  split; [|split].
  - cbn [app]. repeat (apply Forall_cons_2; [apply Z.mod_pos_bound; lia|]).
    exact Hpayload.
  - exact Hdec.
  - intros Hrange. rewrite Hdec. by apply Z.mod_small.
Qed.

Lemma service_data_bytes_round_trip_witness :
  Forall (λ b, 0 ≤ b < 256)
    (fill_service_data service_data_uuid service_data_payload
       (service_data initial_globals)) ∧
  uuid16_member
    (UUID128 (fill_service_data service_data_uuid service_data_payload
                (service_data initial_globals))) = 0xC1C5.
Proof.
  assert (Hbytes : Forall (λ b, 0 ≤ b < 256) service_data_payload).
  { unfold service_data_payload. repeat (apply Forall_cons_2; [lia|]).
    apply Forall_nil_2. }
  assert (Hrange : 0 ≤ service_data_uuid < 65536) by (unfold service_data_uuid; lia).
  pose proof (service_data_bytes_round_trip service_data_uuid service_data_payload
                (service_data initial_globals) eq_refl Hbytes) as (H1 & _ & H3).
  split; [exact H1|exact (H3 Hrange)].
Defined.

(** * Properties of [app_main] *)

(** A checked call followed by the rest of the routine. *)
Lemma check_then {A} (NDEBUG : bool) (c : boot_call) (rc : Z) (k : B A) :
  (ESP_ERROR_CHECK NDEBUG (esp_call c rc) ≫= λ _, k) =
  if NDEBUG || (rc =? ESP_OK) then (k.1, c :: k.2)
  else (None, [c; esp_error_check_failed rc]).
Proof.
  unfold ESP_ERROR_CHECK, esp_call, mbind, B_bind. cbn [fst snd app].
  destruct (NDEBUG || (rc =? ESP_OK)); reflexivity.
Qed.

Lemma check_last (NDEBUG : bool) (c : boot_call) (rc : Z) :
  ESP_ERROR_CHECK NDEBUG (esp_call c rc) =
  if NDEBUG || (rc =? ESP_OK) then (Some (), [c])
  else (None, [c; esp_error_check_failed rc]).
Proof.
  unfold ESP_ERROR_CHECK, esp_call, mbind, B_bind. cbn [fst snd app].
  destruct (NDEBUG || (rc =? ESP_OK)); reflexivity.
Qed.

(** The last nine checked calls. *)
Lemma app_main_tail (NDEBUG : bool) (r : boot_replies) :
  (ESP_ERROR_CHECK NDEBUG (esp_call esp_bt_controller_init (controller_init_ret r)) ;;
   ESP_ERROR_CHECK NDEBUG (esp_call (esp_bt_controller_enable ESP_BT_MODE_BLE)
                             (controller_enable_ret r)) ;;
   ESP_ERROR_CHECK NDEBUG (esp_call esp_bluedroid_init (bluedroid_init_ret r)) ;;
   ESP_ERROR_CHECK NDEBUG (esp_call esp_bluedroid_enable (bluedroid_enable_ret r)) ;;
   ESP_ERROR_CHECK NDEBUG
     (esp_call (esp_ble_gap_register_callback cb_gap_event_handler)
        (gap_register_callback_ret r)) ;;
   ESP_ERROR_CHECK NDEBUG
     (esp_call (esp_ble_gattc_register_callback cb_gattc_event_handler)
        (gattc_register_callback_ret r)) ;;
   ESP_ERROR_CHECK NDEBUG
     (esp_call (esp_ble_gatts_register_callback cb_gatts_event_handler)
        (gatts_register_callback_ret r)) ;;
   ESP_ERROR_CHECK NDEBUG
     (esp_call (esp_ble_gattc_app_register 0) (gattc_app_register_ret r)) ;;
   ESP_ERROR_CHECK NDEBUG
     (esp_call (esp_ble_gatts_app_register 0) (gatts_app_register_ret r))) =
  ((if all_pass NDEBUG (last_steps r) then Some () else None),
   checked_trace NDEBUG (last_steps r)).
Proof.
  rewrite !check_then, check_last.
  unfold all_pass, last_steps. cbn [checked_trace forallb fst snd].
  destruct NDEBUG; [reflexivity|]. cbn [orb].
  repeat match goal with
         | |- context [?rc =? ESP_OK] =>
             destruct (rc =? ESP_OK); cbn [andb fst snd]; [|reflexivity]
         end.
  reflexivity.
Qed.

(** [app_main] as a whole: the log line and the first NVS initialisation,
    then the first run of checked calls, and if none of them aborts the
    MAC address calls and the second run of checked calls. *)
Lemma app_main_run (NDEBUG : bool) (NO_FREE_PAGES NEW_VERSION_FOUND : Z)
    (r : boot_replies) :
  app_main NDEBUG NO_FREE_PAGES NEW_VERSION_FOUND r =
  ((if all_pass NDEBUG (first_steps NO_FREE_PAGES NEW_VERSION_FOUND r) &&
       all_pass NDEBUG (last_steps r)
    then Some () else None),
   [logged (esp_log LOGI TAG "Starting BLE Proxy..." []); nvs_flash_init] ++
   checked_trace NDEBUG (first_steps NO_FREE_PAGES NEW_VERSION_FOUND r) ++
   (if all_pass NDEBUG (first_steps NO_FREE_PAGES NEW_VERSION_FOUND r)
    then mac_calls r ++ checked_trace NDEBUG (last_steps r) else [])).
Proof.
  unfold app_main.
  pose proof (app_main_tail NDEBUG r) as Htail.
  match type of Htail with ?t = _ => set (tail := t) in * end.
  clearbody tail. subst tail.
  generalize (checked_trace NDEBUG (last_steps r)) as tail_trace.
  generalize (all_pass NDEBUG (last_steps r)) as tail_ok.
  intros tail_ok tail_trace.
  unfold first_steps, mac_calls, all_pass.
  unfold ESP_ERROR_CHECK, esp_call, boot_log, mbind, B_bind, mret, B_ret.
  cbn [fst snd app].
  destruct ((nvs_flash_init_ret r =? NO_FREE_PAGES) ||
            (nvs_flash_init_ret r =? NEW_VERSION_FOUND));
    cbn [fst snd app checked_trace forallb];
    destruct NDEBUG; cbn [orb fst snd app];
    repeat match goal with
           | |- context [?rc =? ESP_OK] =>
               destruct (rc =? ESP_OK); cbn [andb orb fst snd app]
           end;
    destruct tail_ok; reflexivity.
Qed.

Lemma count_boot_calls_app (p : boot_call → bool) (tr1 tr2 : list boot_call) :
  count_boot_calls p (tr1 ++ tr2) = (count_boot_calls p tr1 + count_boot_calls p tr2)%nat.
Proof. unfold count_boot_calls. by rewrite List.filter_app, length_app. Qed.

Lemma count_checked_trace_none (p : boot_call → bool) (NDEBUG : bool)
    (steps : list (boot_call * Z)) :
  Forall (λ s, p s.1 = false) steps →
  (∀ rc, p (esp_error_check_failed rc) = false) →
  count_boot_calls p (checked_trace NDEBUG steps) = 0%nat.
Proof.
  intros Hsteps Hfail. unfold count_boot_calls.
  induction Hsteps as [|[c rc] steps Hc _ IH]; [reflexivity|].
  cbn [checked_trace List.filter]. cbn [fst] in Hc. rewrite Hc.
  destruct (NDEBUG || (rc =? ESP_OK)); [exact IH|].
  cbn [List.filter]. by rewrite Hfail.
Qed.

Lemma count_mac_calls_none (p : boot_call → bool) (r : boot_replies) :
  (∀ mac, p (esp_base_mac_addr_set mac) = false) →
  (∀ c, p (logged c) = false) →
  (∀ type, p (esp_read_mac type) = false) →
  count_boot_calls p (mac_calls r) = 0%nat.
Proof.
  intros Hset Hlog Hread. unfold count_boot_calls, mac_calls.
  destruct (base_mac_addr_set_ret r =? ESP_OK), (read_mac_ret r =? ESP_OK);
    cbn [app List.filter]; by rewrite ?Hset, ?Hlog, ?Hread.
Qed.

(** X9: [app_main] runs to its end exactly when every call wrapped in
    [ESP_ERROR_CHECK] that it reaches returns [ESP_OK], or when the build
    disables the check.  The first [nvs_flash_init], [esp_base_mac_addr_set]
    and [esp_read_mac] are not among them: whatever they return, start-up
    goes on. *)
Theorem app_main_finishes_iff_checks_pass
    (NDEBUG : bool) (NO_FREE_PAGES NEW_VERSION_FOUND : Z) (r : boot_replies) :
  finished (app_main NDEBUG NO_FREE_PAGES NEW_VERSION_FOUND r) =
  NDEBUG || forallb (λ rc, rc =? ESP_OK) (checked_codes NO_FREE_PAGES NEW_VERSION_FOUND r).
Proof.
  rewrite app_main_run. unfold finished. cbn [fst].
  unfold all_pass, first_steps, last_steps, checked_codes.
  destruct NDEBUG; [reflexivity|]. cbn [orb].
  destruct ((nvs_flash_init_ret r =? NO_FREE_PAGES) ||
            (nvs_flash_init_ret r =? NEW_VERSION_FOUND));
    cbn [app forallb fst snd];
    repeat match goal with
           | |- context [?rc =? ESP_OK] =>
               destruct (rc =? ESP_OK); cbn [andb]; [|reflexivity]
           end;
    reflexivity.
Qed.

Lemma count_after_first_steps_none (p : boot_call → bool) (NDEBUG b : bool)
    (r : boot_replies) :
  Forall (λ s, p s.1 = false) (last_steps r) →
  (∀ rc, p (esp_error_check_failed rc) = false) →
  (∀ mac, p (esp_base_mac_addr_set mac) = false) →
  (∀ c, p (logged c) = false) →
  (∀ type, p (esp_read_mac type) = false) →
  count_boot_calls p
    (if b then mac_calls r ++ checked_trace NDEBUG (last_steps r) else []) = 0%nat.
Proof.
  intros Hlast Hfail Hset Hlog Hread. destruct b; [|reflexivity].
  by rewrite count_boot_calls_app, count_mac_calls_none, count_checked_trace_none.
Qed.

(** X10: the NVS partition is erased only when the first
    [nvs_flash_init] returns [ESP_ERR_NVS_NO_FREE_PAGES] or
    [ESP_ERR_NVS_NEW_VERSION_FOUND], and then exactly once; any other code
    from that call, errors included, is ignored.  [nvs_flash_init] is
    called a second time only after such an erase has passed its check. *)
Theorem nvs_erased_only_on_the_two_codes
    (NDEBUG : bool) (NO_FREE_PAGES NEW_VERSION_FOUND : Z) (r : boot_replies) :
  count_boot_calls is_nvs_flash_erase
    (app_main NDEBUG NO_FREE_PAGES NEW_VERSION_FOUND r).2 =
    (if (nvs_flash_init_ret r =? NO_FREE_PAGES) ||
        (nvs_flash_init_ret r =? NEW_VERSION_FOUND)
     then 1%nat else 0%nat) ∧
  count_boot_calls is_nvs_flash_init
    (app_main NDEBUG NO_FREE_PAGES NEW_VERSION_FOUND r).2 =
    (if ((nvs_flash_init_ret r =? NO_FREE_PAGES) ||
         (nvs_flash_init_ret r =? NEW_VERSION_FOUND)) &&
        (NDEBUG || (nvs_flash_erase_ret r =? ESP_OK))
     then 2%nat else 1%nat).
Proof.
  rewrite app_main_run. cbn [snd].
  rewrite !count_boot_calls_app.
  rewrite !count_after_first_steps_none
    by (try (intros; reflexivity); unfold last_steps; repeat constructor).
  unfold first_steps.
  destruct ((nvs_flash_init_ret r =? NO_FREE_PAGES) ||
            (nvs_flash_init_ret r =? NEW_VERSION_FOUND));
    cbn [app checked_trace andb];
    destruct NDEBUG; cbn [orb];
    repeat match goal with
           | |- context [?rc =? ESP_OK] => destruct (rc =? ESP_OK)
           end;
    split; reflexivity.
Qed.

(** X11: an application is registered only after the three callbacks have
    been registered, each with its own handler and directly before the
    client application: no registration event can reach the stack before
    its handler is installed.  Unless the check is disabled, the three
    callback registrations have also returned [ESP_OK]. *)
Theorem apps_registered_after_callbacks
    (NDEBUG : bool) (NO_FREE_PAGES NEW_VERSION_FOUND : Z) (r : boot_replies) :
  (0 < count_boot_calls is_app_register
         (app_main NDEBUG NO_FREE_PAGES NEW_VERSION_FOUND r).2)%nat →
  ∃ pre post,
    (app_main NDEBUG NO_FREE_PAGES NEW_VERSION_FOUND r).2 =
      pre ++
      [esp_ble_gap_register_callback cb_gap_event_handler;
       esp_ble_gattc_register_callback cb_gattc_event_handler;
       esp_ble_gatts_register_callback cb_gatts_event_handler;
       esp_ble_gattc_app_register 0] ++ post ∧
    count_boot_calls is_app_register pre = 0%nat ∧
    (NDEBUG = false →
     gap_register_callback_ret r = ESP_OK ∧
     gattc_register_callback_ret r = ESP_OK ∧
     gatts_register_callback_ret r = ESP_OK).
Proof.
  rewrite app_main_run. cbn [snd].
  assert (Hfirst : count_boot_calls is_app_register
            (checked_trace NDEBUG (first_steps NO_FREE_PAGES NEW_VERSION_FOUND r)) = 0%nat).
  { apply count_checked_trace_none; [|done]. unfold first_steps.
    destruct (_ || _); repeat constructor. }
  assert (Hmac : count_boot_calls is_app_register (mac_calls r) = 0%nat)
    by (by apply count_mac_calls_none).
  revert Hfirst Hmac.
  generalize (checked_trace NDEBUG (first_steps NO_FREE_PAGES NEW_VERSION_FOUND r))
    as first_trace.
  generalize (mac_calls r) as mac_trace.
  intros mac_trace first_trace Hfirst Hmac.
  destruct (all_pass NDEBUG (first_steps NO_FREE_PAGES NEW_VERSION_FOUND r)).
  2: { rewrite !count_boot_calls_app, Hfirst. cbn. lia. }
  unfold last_steps. cbn [checked_trace].
  assert (Hfound : ∀ post,
    ∃ pre post',
      [logged (esp_log LOGI TAG "Starting BLE Proxy..." []); nvs_flash_init] ++
      first_trace ++ mac_trace ++
      esp_bt_controller_init :: esp_bt_controller_enable ESP_BT_MODE_BLE ::
      esp_bluedroid_init :: esp_bluedroid_enable ::
      esp_ble_gap_register_callback cb_gap_event_handler ::
      esp_ble_gattc_register_callback cb_gattc_event_handler ::
      esp_ble_gatts_register_callback cb_gatts_event_handler ::
      esp_ble_gattc_app_register 0 :: post =
      pre ++
      [esp_ble_gap_register_callback cb_gap_event_handler;
       esp_ble_gattc_register_callback cb_gattc_event_handler;
       esp_ble_gatts_register_callback cb_gatts_event_handler;
       esp_ble_gattc_app_register 0] ++ post' ∧
      count_boot_calls is_app_register pre = 0%nat).
  { intros post.
    exists ([logged (esp_log LOGI TAG "Starting BLE Proxy..." []); nvs_flash_init] ++
            first_trace ++ mac_trace ++
            [esp_bt_controller_init; esp_bt_controller_enable ESP_BT_MODE_BLE;
             esp_bluedroid_init; esp_bluedroid_enable]), post.
    split.
    - rewrite <- !(assoc_L (++)). reflexivity.
    - rewrite !count_boot_calls_app, Hfirst, Hmac. reflexivity. }
  destruct NDEBUG; cbn [orb].
  - intros _. destruct (Hfound [esp_ble_gatts_app_register 0]) as (pre & post & Heq & Hpre).
    exists pre, post. split; [exact Heq|]. split; [exact Hpre|]. discriminate.
  - destruct (controller_init_ret r =? ESP_OK);
      [|rewrite !count_boot_calls_app, Hfirst, Hmac; cbn; lia].
    destruct (controller_enable_ret r =? ESP_OK);
      [|rewrite !count_boot_calls_app, Hfirst, Hmac; cbn; lia].
    destruct (bluedroid_init_ret r =? ESP_OK);
      [|rewrite !count_boot_calls_app, Hfirst, Hmac; cbn; lia].
    destruct (bluedroid_enable_ret r =? ESP_OK);
      [|rewrite !count_boot_calls_app, Hfirst, Hmac; cbn; lia].
    destruct (Z.eqb_spec (gap_register_callback_ret r) ESP_OK);
      [|rewrite !count_boot_calls_app, Hfirst, Hmac; cbn; lia].
    destruct (Z.eqb_spec (gattc_register_callback_ret r) ESP_OK);
      [|rewrite !count_boot_calls_app, Hfirst, Hmac; cbn; lia].
    destruct (Z.eqb_spec (gatts_register_callback_ret r) ESP_OK);
      [|rewrite !count_boot_calls_app, Hfirst, Hmac; cbn; lia].
    intros _.
    match goal with
    | |- context [esp_ble_gattc_app_register 0 :: ?post] =>
        destruct (Hfound post) as (pre & post' & Heq & Hpre)
    end.
    exists pre, post'. split; [exact Heq|]. split; [exact Hpre|]. done.
Qed.

Lemma apps_registered_after_callbacks_witness :
  ∃ pre post,
    (app_main false 0x110d 0x1110 all_ok).2 =
      pre ++
      [esp_ble_gap_register_callback cb_gap_event_handler;
       esp_ble_gattc_register_callback cb_gattc_event_handler;
       esp_ble_gatts_register_callback cb_gatts_event_handler;
       esp_ble_gattc_app_register 0] ++ post ∧
    count_boot_calls is_app_register pre = 0%nat ∧
    (false = false →
     gap_register_callback_ret all_ok = ESP_OK ∧
     gattc_register_callback_ret all_ok = ESP_OK ∧
     gatts_register_callback_ret all_ok = ESP_OK).
Proof.
  apply (apps_registered_after_callbacks false 0x110d 0x1110 all_ok).
  vm_compute. lia.
Defined.

Lemma checked_trace_fail (steps : list (boot_call * Z)) :
  all_pass false steps = false →
  ∃ pre rc,
    checked_trace false steps = pre ++ [esp_error_check_failed rc] ∧
    rc ≠ ESP_OK ∧ In rc (map snd steps).
Proof.
  unfold all_pass. cbn [orb].
  induction steps as [|[c rc] steps IH]; [discriminate|].
  cbn [forallb checked_trace orb snd map].
  destruct (Z.eqb_spec rc ESP_OK) as [Hok|Hfail]; cbn [andb].
  - intros Hrest. destruct (IH Hrest) as (pre & rc' & Heq & Hrc & Hin).
    exists (c :: pre), rc'. rewrite Heq. repeat split; [done|by right].
  - intros _. exists [c], rc. repeat split; [done|by left].
Qed.

Lemma checked_codes_steps (NO_FREE_PAGES NEW_VERSION_FOUND : Z) (r : boot_replies) :
  checked_codes NO_FREE_PAGES NEW_VERSION_FOUND r =
  map snd (first_steps NO_FREE_PAGES NEW_VERSION_FOUND r) ++ map snd (last_steps r).
Proof. unfold checked_codes, first_steps. destruct (_ || _); reflexivity. Qed.

(** X12: with the check enabled, a start-up that does not finish ends in
    the abort: the last call of the run is the failure report, and the
    code it carries is a code other than [ESP_OK] returned by one of the
    checked calls.  Nothing is called after it. *)
Theorem unfinished_start_up_ends_in_abort
    (NO_FREE_PAGES NEW_VERSION_FOUND : Z) (r : boot_replies) :
  finished (app_main false NO_FREE_PAGES NEW_VERSION_FOUND r) = false →
  ∃ pre rc,
    (app_main false NO_FREE_PAGES NEW_VERSION_FOUND r).2 =
      pre ++ [esp_error_check_failed rc] ∧
    rc ≠ ESP_OK ∧
    In rc (checked_codes NO_FREE_PAGES NEW_VERSION_FOUND r).
Proof.
  rewrite app_main_run, checked_codes_steps. unfold finished. cbn [fst snd].
  destruct (all_pass false (first_steps NO_FREE_PAGES NEW_VERSION_FOUND r)) eqn:Hfirst;
    cbn [andb].
  - destruct (all_pass false (last_steps r)) eqn:Hlast; [discriminate|]. intros _.
    destruct (checked_trace_fail _ Hlast) as (pre & rc & Heq & Hrc & Hin).
    exists ([logged (esp_log LOGI TAG "Starting BLE Proxy..." []); nvs_flash_init] ++
            checked_trace false (first_steps NO_FREE_PAGES NEW_VERSION_FOUND r) ++
            mac_calls r ++ pre), rc.
    rewrite Heq. split; [by rewrite <- !(assoc_L (++))|].
    split; [exact Hrc|]. apply in_or_app. by right.
  - intros _.
    destruct (checked_trace_fail _ Hfirst) as (pre & rc & Heq & Hrc & Hin).
    exists ([logged (esp_log LOGI TAG "Starting BLE Proxy..." []); nvs_flash_init] ++ pre),
      rc.
    rewrite Heq, app_nil_r. split; [by rewrite <- !(assoc_L (++))|].
    split; [exact Hrc|]. apply in_or_app. by left.
Qed.

Lemma unfinished_start_up_ends_in_abort_witness :
  ∃ pre rc,
    (app_main false 0x110d 0x1110 controller_init_fails).2 =
      pre ++ [esp_error_check_failed rc] ∧
    rc ≠ ESP_OK ∧
    In rc (checked_codes 0x110d 0x1110 controller_init_fails).
Proof.
  exact (unfinished_start_up_ends_in_abort 0x110d 0x1110 controller_init_fails eq_refl).
Defined.
